(** * DerivaSharp notebooks: the interop bootstrap [notebooks/common_imports.py]

    The script is a straight-line sequence of eleven statements.  It is
    embedded as a list of state transformers over a session (the Python
    process running the notebook) inside an ambient environment (what is
    installed on the machine).  Statements either complete normally or raise;
    nothing in the script catches an exception. *)

From Stdlib Require Import String Ascii List.
From stdpp Require Import gmap strings list fin_maps.

Open Scope string_scope.
Open Scope list_scope.
Open Scope nat_scope.
#[local] Set Warnings "-clear-no-such-hyp".

(** ** Paths *)

Module Path.

(** An absolute path is the list of its components below the root (the
    drive or leading separator is left implicit). *)
Abbreviation t := (list string).

(** [str.split(sep)] *)
Fixpoint split_on (sep : ascii) (s : string) : list string :=
  match s with
  | EmptyString => [EmptyString]
  | String c rest =>
      if Ascii.eqb c sep then EmptyString :: split_on sep rest
      else match split_on sep rest with
           | [] => [String c EmptyString]
           | w :: ws => String c w :: ws
           end
  end.

Definition is_absolute (p : string) : bool :=
  match p with
  | String c _ => Ascii.eqb c "/"
  | EmptyString => false
  end.

(** The component loop of [os.path.normpath] on a rooted path: empty and
    ["."] components are skipped, [".."] pops the last kept component and
    is dropped at the root.  [kept] is the stack of kept components, last
    one first. *)
Fixpoint normalize (kept : list string) (comps : list string) : t :=
  match comps with
  | [] => rev kept
  | c :: cs =>
      if bool_decide (c = EmptyString ∨ c = ".") then normalize kept cs
      else if bool_decide (c = "..") then normalize (tail kept) cs
      else normalize (c :: kept) cs
  end.

Definition normpath (comps : list string) : t := normalize [] comps.

(** [os.path.abspath(p)] is [normpath(join(os.getcwd(), p))]: a relative
    [p] is appended to the current working directory, an absolute one
    replaces it. *)
Definition abspath (cwd : t) (p : string) : t :=
  if is_absolute p then normpath (split_on "/" p)
  else normpath (cwd ++ split_on "/" p).

(** The directory above [d] ([d] itself at the root). *)
Definition parent (d : t) : t := rev (tail (rev d)).

End Path.

(** The string literal of line 8. *)
Definition artifact_literal : string :=
  "../src/DerivaSharp/bin/Release/net9.0/win-x64/publish/DerivaSharp.dll".

(** ** Values, exceptions and observable events *)

(** What a name of the calling scope can be bound to. *)
Inductive Obj : Type :=
| PyModule (name : string)
| PyFunction (module name : string)
| ClrNamespace (name : string)
| ClrType (namespace name : string).

#[global] Instance Obj_eq_dec : EqDecision Obj.
Proof. solve_decision. Defined.

Inductive Exn : Type :=
| ModuleNotFoundError (name : string)
| ImportError (module name : string)
| NameError (name : string)
| AttributeError (attr : string)
| TypeError (what : string)
| RuntimeError (runtime : string)
| FileNotFoundException (p : Path.t)
| BadImageFormatException (p : Path.t).

#[global] Instance Exn_eq_dec : EqDecision Exn.
Proof. solve_decision. Defined.

(** Failure classes of the error taxonomy. *)
Definition environment_missing (e : Exn) : bool :=
  match e with RuntimeError _ => true | _ => false end.

Definition load_failure (e : Exn) : bool :=
  match e with
  | FileNotFoundException _ | BadImageFormatException _ => true
  | _ => false
  end.


(** The log of what a run did, oldest event first.  [ok] tells whether the
    operation returned normally. *)
Inductive Event : Type :=
| EvImport (name : string) (ok : bool)
| EvBind (name : string)
| EvLoadRuntime (runtime : string) (ok : bool)
| EvAddReference (p : Path.t) (ok : bool).

#[global] Instance Event_eq_dec : EqDecision Event.
Proof. solve_decision. Defined.

(** ** The ambient environment and the session *)

(** A file on disk, as the assembly loader sees it: whether it is a binary
    the active runtime can load, and the namespaces it exposes. *)
Record File : Type := mkFile {
  loadable : bool;
  exposes : gset string
}.

(** What is installed on the machine; constant during a session.  A module
    name is in [installed] when importing it succeeds: the module, the
    packages above it and the modules it imports itself can all be loaded. *)
Record Env : Type := mkEnv {
  installed : gset string;        (* importable third-party Python modules *)
  runtimes : gset string;         (* hosted runtimes the bridge can discover *)
  cwd : Path.t;                   (* os.getcwd() *)
  script_dir : Path.t;            (* directory holding common_imports.py *)
  files : gmap Path.t File;       (* the filesystem *)
  system_types : gset string      (* types of the runtime's System namespace *)
}.

(** The Python process that executes the script. *)
Record Session : Type := mkSession {
  sys_modules : gset string;      (* sys.modules: modules already imported *)
  bridge : option string;         (* the runtime loaded by the bridge, if any *)
  assemblies : gset Path.t;       (* assemblies loaded into the runtime *)
  namespaces : gset string;       (* namespaces known to the import hook *)
  globals : gmap string Obj;      (* the calling scope *)
  trace : list Event
}.

Definition new_session : Session :=
  {| sys_modules := ∅; bridge := None; assemblies := ∅; namespaces := ∅;
     globals := ∅; trace := [] |}.

(** Modules of the Python standard library that the script imports. *)
Definition stdlib_modules : gset string := {[ "os" ]}.

Definition log (ev : Event) (s : Session) : Session :=
  {| sys_modules := sys_modules s; bridge := bridge s;
     assemblies := assemblies s; namespaces := namespaces s;
     globals := globals s; trace := trace s ++ [ev] |}.

Definition set_global (x : string) (o : Obj) (s : Session) : Session :=
  {| sys_modules := sys_modules s; bridge := bridge s;
     assemblies := assemblies s; namespaces := namespaces s;
     globals := <[x := o]> (globals s); trace := trace s |}.

Definition cache_module (name : string) (s : Session) : Session :=
  {| sys_modules := {[ name ]} ∪ sys_modules s; bridge := bridge s;
     assemblies := assemblies s; namespaces := namespaces s;
     globals := globals s; trace := trace s |}.

(** Starting the runtime.  Of the namespaces the runtime brings with it only
    [System] is followed, the one the script imports from. *)
Definition activate_bridge (runtime : string) (s : Session) : Session :=
  {| sys_modules := sys_modules s; bridge := Some runtime;
     assemblies := assemblies s; namespaces := {[ "System" ]} ∪ namespaces s;
     globals := globals s; trace := trace s |}.

Definition register_assembly (p : Path.t) (f : File) (s : Session) : Session :=
  {| sys_modules := sys_modules s; bridge := bridge s;
     assemblies := {[ p ]} ∪ assemblies s;
     namespaces := exposes f ∪ namespaces s;
     globals := globals s; trace := trace s |}.

(** ** Statements: state passing with exceptions *)

Inductive Res (A : Type) : Type :=
| Ok (a : A)
| Raise (e : Exn).
Arguments Ok {A} a.
Arguments Raise {A} e.

Definition M (A : Type) : Type := Session → Session * Res A.

Definition ret {A} (a : A) : M A := λ s, (s, Ok a).
Definition raise {A} (e : Exn) : M A := λ s, (s, Raise e).
Definition bind {A B} (m : M A) (k : A → M B) : M B :=
  λ s, match m s with
       | (s', Ok a) => k a s'
       | (s', Raise e) => (s', Raise e)
       end.
Definition tell (ev : Event) : M unit := λ s, (log ev s, Ok tt).

Declare Scope py_scope.
Delimit Scope py_scope with py.
Notation "x <- m ;; k" := (bind m (λ x, k))
  (at level 100, m at next level, right associativity) : py_scope.
Notation "m ;; k" := (bind m (λ _, k))
  (at level 100, right associativity) : py_scope.
Open Scope py_scope.

(** Reading a name of the calling scope. *)
Definition lookup_name (x : string) : M Obj :=
  λ s, match globals s !! x with
       | Some o => (s, Ok o)
       | None => (s, Raise (NameError x))
       end.

(** Binding a name in the calling scope. *)
Definition bind_name (x : string) (o : Obj) : M unit :=
  λ s, (log (EvBind x) (set_global x o s), Ok tt).

(** The import system on a Python module: [sys.modules] first, then the
    finders; a module that cannot be found raises and is not cached.  The
    import of one statement is one step: the exception carries the name the
    statement asked for, and of what a successful import adds to the cache
    only that name is followed. *)
Definition import_module (env : Env) (name : string) : M Obj :=
  λ s, if bool_decide (name ∈ sys_modules s) then
         (log (EvImport name true) s, Ok (PyModule name))
       else if bool_decide (name ∈ stdlib_modules ∪ installed env) then
         (log (EvImport name true) (cache_module name s), Ok (PyModule name))
       else (log (EvImport name false) s, Raise (ModuleNotFoundError name)).

(** The import system on a namespace of the hosted runtime, served by the
    bridge's import hook from the namespaces of the loaded assemblies. *)
Definition import_namespace (name : string) : M Obj :=
  λ s, if bool_decide (name ∈ sys_modules s) then
         (log (EvImport name true) s, Ok (ClrNamespace name))
       else if bool_decide (name ∈ namespaces s) then
         (log (EvImport name true) (cache_module name s), Ok (ClrNamespace name))
       else (log (EvImport name false) s, Raise (ModuleNotFoundError name)).

(** [pythonnet.load]: returns at once when a runtime is already loaded,
    otherwise looks for the requested runtime and starts it. *)
Definition pythonnet_load (env : Env) (runtime : string) : M unit :=
  λ s, match bridge s with
       | Some _ => (log (EvLoadRuntime runtime true) s, Ok tt)
       | None =>
           if bool_decide (runtime ∈ runtimes env) then
             (log (EvLoadRuntime runtime true) (activate_bridge runtime s), Ok tt)
           else (log (EvLoadRuntime runtime false) s, Raise (RuntimeError runtime))
       end.

(** [os.path.abspath] *)
Definition os_path_abspath (env : Env) (p : string) : M Path.t :=
  ret (Path.abspath (cwd env) p).

(** [clr.AddReference] on a full path.  The file at the path is looked at
    on each call; what the runtime keeps of an assembly loaded earlier from
    the same path is not followed, so two calls are compared only while the
    file at the path is the same. *)
Definition clr_AddReference (env : Env) (p : Path.t) : M unit :=
  λ s, match files env !! p with
       | None => (log (EvAddReference p false) s, Raise (FileNotFoundException p))
       | Some f =>
           if loadable f then
             (log (EvAddReference p true) (register_assembly p f s), Ok tt)
           else (log (EvAddReference p false) s, Raise (BadImageFormatException p))
       end.

(** Attribute of a module object, as [from m import x] reads it: the bridge
    package defines [load]; the [System] namespace has the types of the
    hosted runtime. *)
Definition module_attr (env : Env) (m : Obj) (x : string) : M Obj :=
  match m with
  | PyModule name =>
      if bool_decide (name = "pythonnet" ∧ x = "load") then ret (PyFunction name x)
      else raise (ImportError name x)
  | ClrNamespace ns =>
      if bool_decide (ns = "System" ∧ x ∈ system_types env) then ret (ClrType ns x)
      else raise (ImportError ns x)
  | _ => raise (ImportError EmptyString x)
  end.

Definition Stmt : Type := Env → M unit.

(** [from m import x] *)
Definition from_import (m x : string) : Stmt :=
  λ env, o <- import_module env m;; v <- module_attr env o x;; bind_name x v.

(** [import m] and [import m as a] *)
Definition import_as (m a : string) : Stmt :=
  λ env, o <- import_module env m;; bind_name a o.

Definition import_ (m : string) : Stmt := import_as m m.

(** [import ns as a] for a namespace of the hosted runtime *)
Definition import_namespace_as (ns a : string) : Stmt :=
  λ _, o <- import_namespace ns;; bind_name a o.

(** [from ns import x] for a namespace of the hosted runtime *)
Definition from_namespace_import (ns x : string) : Stmt :=
  λ env, o <- import_namespace ns;; v <- module_attr env o x;; bind_name x v.

(** [load(runtime)]: a call of whatever the name [load] is bound to. *)
Definition call_load (runtime : string) : Stmt :=
  λ env, f <- lookup_name "load";;
         if bool_decide (f = PyFunction "pythonnet" "load")
         then pythonnet_load env runtime
         else raise (TypeError "load").

(** [clr.AddReference(os.path.abspath(lit))]: the callee is evaluated first,
    then the argument, then the call is made. *)
Definition add_reference (lit : string) : Stmt :=
  λ env, c <- lookup_name "clr";;
         (if bool_decide (c = PyModule "clr") then ret tt
          else raise (AttributeError "AddReference"));;
         o <- lookup_name "os";;
         (if bool_decide (o = PyModule "os") then ret tt
          else raise (AttributeError "path"));;
         p <- os_path_abspath env lit;;
         clr_AddReference env p.

(** ** The script *)

Definition bootstrap : list Stmt :=
  [ from_import "pythonnet" "load";                                       (* line 1 *)
    call_load "coreclr";                                                  (* line 3 *)
    import_ "os";                                                         (* line 5 *)
    import_ "clr";                                                        (* line 6 *)
    add_reference artifact_literal;                                       (* line 8 *)
    import_as "matplotlib.pyplot" "plt";                                  (* line 10 *)
    import_as "numpy" "np";                                               (* line 11 *)
    import_as "pandas" "pd";                                              (* line 12 *)
    import_namespace_as "DerivaSharp.Instruments" "Instruments";          (* line 14 *)
    import_namespace_as "DerivaSharp.PricingEngines" "PricingEngines";    (* line 15 *)
    from_namespace_import "System" "DateOnly" ].                          (* line 16 *)

(** How a run ends. *)
Inductive Completion : Type :=
| Normal
| Uncaught (e : Exn).

#[global] Instance Completion_eq_dec : EqDecision Completion.
Proof. solve_decision. Defined.

(** A module body: the statements run in order; the first exception ends
    the run, since no statement of the script is inside a [try]. *)
Fixpoint exec (env : Env) (prog : list Stmt) (s : Session) : Session * Completion :=
  match prog with
  | [] => (s, Normal)
  | st :: rest =>
      match st env s with
      | (s', Ok _) => exec env rest s'
      | (s', Raise e) => (s', Uncaught e)
      end
  end.

Definition run (env : Env) (s : Session) : Session * Completion :=
  exec env bootstrap s.

(** The names bound in the calling scope. *)
Definition bound_names (s : Session) : gset string := dom (globals s).

(** The names the bootstrap advertises to the notebook cells. *)
Definition advertised : list string :=
  ["plt"; "np"; "pd"; "Instruments"; "PricingEngines"; "DateOnly"].

(** The events a run from [s] to [s'] added to the log. *)
Definition events_of (s s' : Session) : list Event :=
  drop (length (trace s)) (trace s').

(** [s] with [t] appended to its log and nothing else changed. *)
Definition extend_log (t : list Event) (s : Session) : Session :=
  {| sys_modules := sys_modules s; bridge := bridge s;
     assemblies := assemblies s; namespaces := namespaces s;
     globals := globals s; trace := trace s ++ t |}.

(** ** Vocabulary of the specification *)

(** The path line 8 hands to the assembly loader. *)
Definition resolved_artifact (env : Env) : Path.t :=
  Path.abspath (cwd env) artifact_literal.

(** Positions of the statements in the script. *)
Definition bridge_init_step : nat := 1.
Definition artifact_load_step : nat := 4.
Definition first_utility_step : nat := 5.

(** Statement [i] raises [e] after the statements before it completed, and
    leaves the session [s']. *)
Definition fails_at (env : Env) (s : Session) (i : nat) (e : Exn)
    (s' : Session) : Prop :=
  ∃ (st : Stmt) (s_i : Session),
    bootstrap !! i = Some st
    ∧ exec env (take i bootstrap) s = (s_i, Normal)
    ∧ st env s_i = (s', Raise e).


Definition utility_modules : list string :=
  ["matplotlib.pyplot"; "numpy"; "pandas"].

Definition domain_names : list string :=
  ["Instruments"; "PricingEngines"; "DateOnly"].

Definition extra_names : list string := ["load"; "os"; "clr"].

Definition all_bound (names : list string) (s : Session) : Prop :=
  ∀ x, x ∈ names → x ∈ bound_names s.

Definition none_bound (names : list string) (s : Session) : Prop :=
  ∀ x, x ∈ names → x ∉ bound_names s.

Definition runtime_installed (env : Env) : Prop := "coreclr" ∈ runtimes env.

Definition artifact_missing (env : Env) : Prop :=
  files env !! resolved_artifact env = None.

Definition artifact_present_and_compatible (env : Env) : Prop :=
  ∃ f, files env !! resolved_artifact env = Some f ∧ loadable f = true.

(** The run made some call of the assembly loader. *)
Definition load_attempted (t : list Event) : Prop :=
  ∃ p ok, EvAddReference p ok ∈ t.

(** Everything the eleven statements need. *)
Record valid_env (env : Env) : Prop := mkValid {
  valid_bridge_package : "pythonnet" ∈ installed env;
  valid_runtime : runtime_installed env;
  valid_clr : "clr" ∈ installed env;
  valid_artifact :
    ∃ f, files env !! resolved_artifact env = Some f ∧ loadable f = true
         ∧ "DerivaSharp.Instruments" ∈ exposes f
         ∧ "DerivaSharp.PricingEngines" ∈ exposes f;
  valid_utilities : ∀ m, m ∈ utility_modules → m ∈ installed env;
  valid_date_type : "DateOnly" ∈ system_types env
}.

(** The claim that line 8 resolves its literal against the directory
    [base env]. *)
Definition resolved_against (base : Env → Path.t) : Prop :=
  ∀ env s p ok,
    EvAddReference p ok ∈ events_of s (run env s).1 →
    p = Path.abspath (base env) artifact_literal.

(** Two environments that the script cannot tell apart: the same answers
    for the modules it imports, the runtime it asks for, the working
    directory, the file at the resolved path and the date type. *)
Record same_ambient (e1 e2 : Env) : Prop := mkSame {
  same_modules :
    ∀ m, m ∈ "pythonnet" :: "clr" :: utility_modules →
         (m ∈ installed e1 ↔ m ∈ installed e2);
  same_runtime : runtime_installed e1 ↔ runtime_installed e2;
  same_cwd : cwd e1 = cwd e2;
  same_artifact :
    files e1 !! resolved_artifact e1 = files e2 !! resolved_artifact e2;
  same_date_type : "DateOnly" ∈ system_types e1 ↔ "DateOnly" ∈ system_types e2
}.

(** ** Concrete environments *)

Definition notebooks_dir : Path.t := ["repo"; "notebooks"].

Definition artifact_path : Path.t :=
  ["repo"; "src"; "DerivaSharp"; "bin"; "Release"; "net9.0"; "win-x64";
   "publish"; "DerivaSharp.dll"].

Definition good_artifact : File :=
  {| loadable := true;
     exposes := {[ "DerivaSharp.Instruments"; "DerivaSharp.PricingEngines" ]} |}.

Definition all_modules : gset string :=
  {[ "pythonnet"; "clr"; "matplotlib.pyplot"; "numpy"; "pandas" ]}.

(** Everything in place, notebook started in its own directory. *)
Definition good_env : Env :=
  {| installed := all_modules;
     runtimes := {[ "coreclr" ]};
     cwd := notebooks_dir;
     script_dir := notebooks_dir;
     files := {[ artifact_path := good_artifact ]};
     system_types := {[ "DateOnly" ]} |}.

(** As [good_env], but the session was started in another directory. *)
Definition elsewhere_env : Env :=
  {| installed := all_modules;
     runtimes := {[ "coreclr" ]};
     cwd := ["home"; "user"];
     script_dir := notebooks_dir;
     files := {[ artifact_path := good_artifact ]};
     system_types := {[ "DateOnly" ]} |}.

(** As [good_env], with numpy not installed. *)
Definition no_numpy_env : Env :=
  {| installed := {[ "pythonnet"; "clr"; "matplotlib.pyplot"; "pandas" ]};
     runtimes := {[ "coreclr" ]};
     cwd := notebooks_dir;
     script_dir := notebooks_dir;
     files := {[ artifact_path := good_artifact ]};
     system_types := {[ "DateOnly" ]} |}.

(** As [good_env], with the artifact not built. *)
Definition no_artifact_env : Env :=
  {| installed := all_modules;
     runtimes := {[ "coreclr" ]};
     cwd := notebooks_dir;
     script_dir := notebooks_dir;
     files := ∅;
     system_types := {[ "DateOnly" ]} |}.

(** Neither a hosted runtime nor the artifact. *)
Definition no_runtime_env : Env :=
  {| installed := all_modules;
     runtimes := ∅;
     cwd := notebooks_dir;
     script_dir := notebooks_dir;
     files := ∅;
     system_types := ∅ |}.




(** ** What a run can be seen to do *)

(** The log of a run in which all eleven statements complete; [p] is the
    path handed to the assembly loader. *)
Definition script_events (p : Path.t) : list Event :=
  [ EvImport "pythonnet" true; EvBind "load";
    EvLoadRuntime "coreclr" true;
    EvImport "os" true; EvBind "os";
    EvImport "clr" true; EvBind "clr";
    EvAddReference p true;
    EvImport "matplotlib.pyplot" true; EvBind "plt";
    EvImport "numpy" true; EvBind "np";
    EvImport "pandas" true; EvBind "pd";
    EvImport "DerivaSharp.Instruments" true; EvBind "Instruments";
    EvImport "DerivaSharp.PricingEngines" true; EvBind "PricingEngines";
    EvImport "System" true; EvBind "DateOnly" ].

(** The ways the script can stop early: how many events of [script_events]
    were logged, the event of the failing operation if it logs one, the
    exception. *)
Definition failures (p : Path.t) : list (nat * list Event * Exn) :=
  [ (0, [EvImport "pythonnet" false], ModuleNotFoundError "pythonnet");
    (2, [EvLoadRuntime "coreclr" false], RuntimeError "coreclr");
    (5, [EvImport "clr" false], ModuleNotFoundError "clr");
    (7, [EvAddReference p false], FileNotFoundException p);
    (7, [EvAddReference p false], BadImageFormatException p);
    (8, [EvImport "matplotlib.pyplot" false], ModuleNotFoundError "matplotlib.pyplot");
    (10, [EvImport "numpy" false], ModuleNotFoundError "numpy");
    (12, [EvImport "pandas" false], ModuleNotFoundError "pandas");
    (14, [EvImport "DerivaSharp.Instruments" false],
         ModuleNotFoundError "DerivaSharp.Instruments");
    (16, [EvImport "DerivaSharp.PricingEngines" false],
         ModuleNotFoundError "DerivaSharp.PricingEngines");
    (18, [EvImport "System" false], ModuleNotFoundError "System");
    (19, [], ImportError "System" "DateOnly") ].

Definition behaviours (p : Path.t) : list (list Event * Completion) :=
  (script_events p, Normal)
  :: map (λ '(k, ev, e), (take k (script_events p) ++ ev, Uncaught e))
         (failures p).

(** The object each name of the script is bound to. *)
Definition bound_object (x : string) : Obj :=
  if String.eqb x "load" then PyFunction "pythonnet" "load"
  else if String.eqb x "os" then PyModule "os"
  else if String.eqb x "clr" then PyModule "clr"
  else if String.eqb x "plt" then PyModule "matplotlib.pyplot"
  else if String.eqb x "np" then PyModule "numpy"
  else if String.eqb x "pd" then PyModule "pandas"
  else if String.eqb x "Instruments" then ClrNamespace "DerivaSharp.Instruments"
  else if String.eqb x "PricingEngines" then ClrNamespace "DerivaSharp.PricingEngines"
  else ClrType "System" x.

(** The calling scope after the bindings recorded in a log. *)
Definition replay (t : list Event) (g : gmap string Obj) : gmap string Obj :=
  foldl (λ g ev, match ev with
                 | EvBind x => <[x := bound_object x]> g
                 | _ => g
                 end) g t.

(** The names bound by the events of a log. *)
Definition names_bound_in (t : list Event) : list string :=
  omap (λ ev, match ev with EvBind x => Some x | _ => None end) t.

(** The third-party Python modules and the runtime namespaces the script
    imports. *)
Definition python_modules : list string :=
  "pythonnet" :: "clr" :: utility_modules.

Definition domain_namespaces : list string :=
  ["DerivaSharp.Instruments"; "DerivaSharp.PricingEngines"].

(** The statement that raises a given exception. *)
Definition step_of (e : Exn) : nat :=
  match e with
  | ModuleNotFoundError m =>
      if String.eqb m "pythonnet" then 0
      else if String.eqb m "os" then 2
      else if String.eqb m "clr" then 3
      else if String.eqb m "matplotlib.pyplot" then 5
      else if String.eqb m "numpy" then 6
      else if String.eqb m "pandas" then 7
      else if String.eqb m "DerivaSharp.Instruments" then 8
      else if String.eqb m "DerivaSharp.PricingEngines" then 9
      else 10
  | ImportError m _ => if String.eqb m "pythonnet" then 0 else 10
  | NameError x => if String.eqb x "load" then 1 else 4
  | TypeError _ => 1
  | RuntimeError _ => 1
  | AttributeError _ => 4
  | FileNotFoundException _ => 4
  | BadImageFormatException _ => 4
  end.

(** What the outcome [(s', c)] of a run from [s] tells about the
    environment and about [s]: the guards of the operations that returned,
    and the reason of the one that raised. *)
Record run_facts_of (env : Env) (s s' : Session) (c : Completion) : Prop :=
  mkFacts {
  ok_bridge :
    events_of s s' !! 2 = Some (EvLoadRuntime "coreclr" true) →
    (is_Some (bridge s) ∨ runtime_installed env) ∧ is_Some (bridge s');
  ok_artifact :
    ∀ p, events_of s s' !! 7 = Some (EvAddReference p true) →
         artifact_present_and_compatible env
         ∧ resolved_artifact env ∈ assemblies s';
  ok_module :
    ∀ m, m ∈ python_modules → EvImport m true ∈ events_of s s' →
         m ∈ sys_modules s ∨ m ∈ installed env;
  ok_namespace :
    ∀ ns, ns ∈ domain_namespaces → EvImport ns true ∈ events_of s s' →
          ns ∈ sys_modules s ∨ ns ∈ namespaces s
          ∨ ∃ f, files env !! resolved_artifact env = Some f ∧ ns ∈ exposes f;
  ok_date_type : c = Normal → "DateOnly" ∈ system_types env;
  no_bridge :
    c = Uncaught (RuntimeError "coreclr") →
    bridge s = None ∧ ¬ runtime_installed env;
  no_file :
    ∀ p, c = Uncaught (FileNotFoundException p) → artifact_missing env;
  bad_file :
    ∀ p, c = Uncaught (BadImageFormatException p) →
         ∃ f, files env !! resolved_artifact env = Some f ∧ loadable f = false;
  no_module :
    ∀ m, c = Uncaught (ModuleNotFoundError m) →
         (m ∉ sys_modules s)
         ∧ (m ∈ python_modules → m ∉ installed env)
         ∧ (m ∈ domain_namespaces →
            (m ∉ namespaces s)
            ∧ ∀ f, files env !! resolved_artifact env = Some f → m ∉ exposes f)
         ∧ (m = "System" → is_Some (bridge s));
  no_date_type :
    c = Uncaught (ImportError "System" "DateOnly") →
    "DateOnly" ∉ system_types env
}.

(** How many of the nine names a run with completion [c] has bound. *)
Definition names_after (c : Completion) : nat :=
  match c with
  | Normal => 9
  | Uncaught e =>
      match step_of e with
      | 0 => 0 | 1 | 2 => 1 | 3 => 2 | 4 | 5 => 3 | 6 => 4 | 7 => 5
      | 8 => 6 | 9 => 7 | _ => 8
      end
  end.

(** As [good_env], seen from a script kept elsewhere, with one more module
    installed, one more runtime and one more file on disk. *)
Definition good_env_variant : Env :=
  {| installed := all_modules ∪ {[ "scipy" ]};
     runtimes := {[ "coreclr"; "mono" ]};
     cwd := notebooks_dir;
     script_dir := ["opt"; "scripts"];
     files := <[ ["tmp"; "scratch.txt"] := {| loadable := false; exposes := ∅ |} ]>
                {[ artifact_path := good_artifact ]};
     system_types := {[ "DateOnly"; "TimeOnly" ]} |}.

(** ** Sessions a notebook can be in *)

(** A session that already holds work of the user: a name of its own, and
    [np] bound to something else than numpy. *)
Definition busy_session : Session :=
  {| sys_modules := {[ "json" ]}; bridge := None; assemblies := ∅;
     namespaces := ∅;
     globals := {[ "data" := PyModule "json"; "np" := PyModule "json" ]};
     trace := [] |}.

(** A component that [os.path.normpath] keeps as it is. *)
Definition plain_component (c : string) : Prop :=
  c ≠ EmptyString ∧ c ≠ "." ∧ c ≠ "..".

(** As [good_env], with pandas not installed. *)
Definition no_pandas_env : Env :=
  {| installed := {[ "pythonnet"; "clr"; "matplotlib.pyplot"; "numpy" ]};
     runtimes := {[ "coreclr" ]};
     cwd := notebooks_dir;
     script_dir := notebooks_dir;
     files := {[ artifact_path := good_artifact ]};
     system_types := {[ "DateOnly" ]} |}.

(** A session that imported numpy and pandas before, and has bound no name. *)
Definition warm_session : Session :=
  {| sys_modules := {[ "numpy"; "pandas" ]}; bridge := None; assemblies := ∅;
     namespaces := ∅; globals := ∅; trace := [] |}.

(** Two sessions in the same state of the process -- module cache, runtime,
    loaded assemblies, known namespaces -- that may differ in what the
    calling scope binds and in the log. *)
Record same_process (s1 s2 : Session) : Prop := mkSameProcess {
  same_sys_modules : sys_modules s1 = sys_modules s2;
  same_bridge : bridge s1 = bridge s2;
  same_assemblies : assemblies s1 = assemblies s2;
  same_namespaces : namespaces s1 = namespaces s2
}.

(** How a run from [s] in [env] ends, read off the environment and the
    state of the process in the order of the script: each statement asks
    one question, and the first that is answered no ends the run. *)
Definition outcome (env : Env) (s : Session) : Completion :=
  let importable m :=
    bool_decide (m ∈ sys_modules s ∪ (stdlib_modules ∪ installed env)) in
  if negb (importable "pythonnet") then
    Uncaught (ModuleNotFoundError "pythonnet")
  else if negb (bool_decide (is_Some (bridge s) ∨ "coreclr" ∈ runtimes env)) then
    Uncaught (RuntimeError "coreclr")
  else if negb (importable "clr") then Uncaught (ModuleNotFoundError "clr")
  else
    match files env !! resolved_artifact env with
    | None => Uncaught (FileNotFoundException (resolved_artifact env))
    | Some f =>
        let known ns :=
          bool_decide (ns ∈ sys_modules s ∪ (exposes f ∪ namespaces s)) in
        if negb (loadable f) then
          Uncaught (BadImageFormatException (resolved_artifact env))
        else if negb (importable "matplotlib.pyplot") then
          Uncaught (ModuleNotFoundError "matplotlib.pyplot")
        else if negb (importable "numpy") then
          Uncaught (ModuleNotFoundError "numpy")
        else if negb (importable "pandas") then
          Uncaught (ModuleNotFoundError "pandas")
        else if negb (known "DerivaSharp.Instruments") then
          Uncaught (ModuleNotFoundError "DerivaSharp.Instruments")
        else if negb (known "DerivaSharp.PricingEngines") then
          Uncaught (ModuleNotFoundError "DerivaSharp.PricingEngines")
        else if negb (bool_decide (bridge s = None) || known "System") then
          Uncaught (ModuleNotFoundError "System")
        else if negb (bool_decide ("DateOnly" ∈ system_types env)) then
          Uncaught (ImportError "System" "DateOnly")
        else Normal
    end.

(** As [busy_session], with nothing bound in the calling scope. *)
Definition idle_session : Session :=
  {| sys_modules := {[ "json" ]}; bridge := None; assemblies := ∅;
     namespaces := ∅; globals := ∅; trace := [] |}.

(** * Properties *)

(** ** Sanity checks of the model on concrete runs *)

Example split_artifact_literal :
  Path.split_on "/" artifact_literal =
  [".."; "src"; "DerivaSharp"; "bin"; "Release"; "net9.0"; "win-x64";
   "publish"; "DerivaSharp.dll"].
Proof. reflexivity. Qed.

Example resolved_artifact_good_env : resolved_artifact good_env = artifact_path.
Proof. vm_compute. reflexivity. Qed.

Example run_good_env_completion : (run good_env new_session).2 = Normal.
Proof. vm_compute. reflexivity. Qed.

Example run_good_env_names :
  bound_names (run good_env new_session).1 =
  {[ "load"; "os"; "clr"; "plt"; "np"; "pd"; "Instruments"; "PricingEngines";
     "DateOnly" ]}.
Proof. vm_compute. reflexivity. Qed.

Example run_good_env_trace :
  trace (run good_env new_session).1 =
  [ EvImport "pythonnet" true; EvBind "load";
    EvLoadRuntime "coreclr" true;
    EvImport "os" true; EvBind "os";
    EvImport "clr" true; EvBind "clr";
    EvAddReference artifact_path true;
    EvImport "matplotlib.pyplot" true; EvBind "plt";
    EvImport "numpy" true; EvBind "np";
    EvImport "pandas" true; EvBind "pd";
    EvImport "DerivaSharp.Instruments" true; EvBind "Instruments";
    EvImport "DerivaSharp.PricingEngines" true; EvBind "PricingEngines";
    EvImport "System" true; EvBind "DateOnly" ].
Proof. vm_compute. reflexivity. Qed.

Example run_no_pandas_env :
  (run no_pandas_env new_session).2 = Uncaught (ModuleNotFoundError "pandas")
  ∧ bound_names (run no_pandas_env new_session).1
    = {[ "load"; "os"; "clr"; "plt"; "np" ]}.
Proof. split; vm_compute; reflexivity. Qed.

Example run_no_runtime_env :
  run no_runtime_env new_session =
  ({| sys_modules := {[ "pythonnet" ]}; bridge := None; assemblies := ∅;
      namespaces := ∅;
      globals := {[ "load" := PyFunction "pythonnet" "load" ]};
      trace := [EvImport "pythonnet" true; EvBind "load";
                EvLoadRuntime "coreclr" false] |},
   Uncaught (RuntimeError "coreclr")).
Proof. vm_compute. reflexivity. Qed.

(** ** Sequencing: how exceptions travel through a module body *)

Section Exec.
Variable env : Env.

Lemma exec_app (p q : list Stmt) (s : Session) :
  exec env (p ++ q) s =
  match exec env p s with
  | (s', Normal) => exec env q s'
  | (s', Uncaught e) => (s', Uncaught e)
  end.
Proof.
  revert s. induction p as [|st p IH]; intros s; simpl; [done|].
  destruct (st env s) as [s1 [[]|e]]; [apply IH | done].
Qed.

Lemma exec_raise_at (prog : list Stmt) (s s_i s' : Session) i st e :
  prog !! i = Some st →
  exec env (take i prog) s = (s_i, Normal) →
  st env s_i = (s', Raise e) →
  exec env prog s = (s', Uncaught e).
Proof.
  intros Hi Hpre Hst.
  rewrite <- (take_drop_middle prog i st Hi), exec_app, Hpre.
  simpl. by rewrite Hst.
Qed.

Lemma exec_uncaught_inv (prog : list Stmt) (s s' : Session) e :
  exec env prog s = (s', Uncaught e) →
  ∃ i st s_i, prog !! i = Some st
              ∧ exec env (take i prog) s = (s_i, Normal)
              ∧ st env s_i = (s', Raise e).
Proof.
  revert s. induction prog as [|st prog IH]; intros s; simpl; [done|].
  destruct (st env s) as [s1 [[]|e1]] eqn:Hst.
  - intros (i & st' & s_i & Hi & Hpre & Hfail)%IH.
    exists (S i), st', s_i. simpl. by rewrite Hst.
  - intros [= <- <-]. by exists 0, st, s.
Qed.


(** A prefix of a prefix that completed normally completed normally. *)
Lemma exec_take_normal (prog : list Stmt) (s s_i : Session) i j :
  exec env (take i prog) s = (s_i, Normal) →
  j ≤ i →
  ∃ s_j, exec env (take j prog) s = (s_j, Normal).
Proof.
  intros Hi Hj.
  assert (take j prog = take j (take i prog)) as ->
    by (by rewrite take_take, Nat.min_l).
  rewrite <- (take_drop j (take i prog)), exec_app in Hi.
  destruct (exec env (take j (take i prog)) s) as [s_j [|e]]; [eauto|done].
Qed.

(** The statement that fails is unique, and so is what it raises. *)
Lemma fails_at_unique (s : Session) i j e1 e2 s1 s2 :
  fails_at env s i e1 s1 → fails_at env s j e2 s2 →
  i = j ∧ e1 = e2 ∧ s1 = s2.
Proof.
  intros (st1 & a1 & Hi & Hp1 & Hf1) (st2 & a2 & Hj & Hp2 & Hf2).
  destruct (Nat.lt_total i j) as [Hlt|[->|Hlt]].
  - rewrite <- (take_drop (S i) (take j bootstrap)), exec_app in Hp2.
    rewrite take_take, Nat.min_l in Hp2 by lia.
    rewrite (take_S_r _ _ _ Hi), exec_app, Hp1 in Hp2. simpl in Hp2.
    rewrite Hf1 in Hp2. done.
  - rewrite Hi in Hj. injection Hj as <-.
    rewrite Hp1 in Hp2. injection Hp2 as <-.
    rewrite Hf1 in Hf2. by injection Hf2 as <- <-.
  - rewrite <- (take_drop (S j) (take i bootstrap)), exec_app in Hp1.
    rewrite take_take, Nat.min_l in Hp1 by lia.
    rewrite (take_S_r _ _ _ Hj), exec_app, Hp2 in Hp1. simpl in Hp1.
    rewrite Hf2 in Hp1. done.
Qed.

End Exec.

(** ** The statements of the script, one equation each *)

Lemma session_eq (a b : Session) :
  sys_modules a = sys_modules b → bridge a = bridge b →
  assemblies a = assemblies b → namespaces a = namespaces b →
  globals a = globals b → trace a = trace b → a = b.
Proof. destruct a, b; simpl; intros; congruence. Qed.

(** Importing a cached module and importing an installed one leave the same
    session: the cache is a set. *)
Lemma import_module_eq env name s :
  import_module env name s =
  if bool_decide (name ∈ sys_modules s ∪ (stdlib_modules ∪ installed env)) then
    (log (EvImport name true) (cache_module name s), Ok (PyModule name))
  else (log (EvImport name false) s, Raise (ModuleNotFoundError name)).
Proof.
  unfold import_module.
  repeat case_bool_decide; try done; try set_solver.
  f_equal. apply session_eq; simpl; try done. set_solver.
Qed.

Lemma import_namespace_eq name s :
  import_namespace name s =
  if bool_decide (name ∈ sys_modules s ∪ namespaces s) then
    (log (EvImport name true) (cache_module name s), Ok (ClrNamespace name))
  else (log (EvImport name false) s, Raise (ModuleNotFoundError name)).
Proof.
  unfold import_namespace.
  repeat case_bool_decide; try done; try set_solver.
  f_equal. apply session_eq; simpl; try done. set_solver.
Qed.

Lemma import_as_eq env m a s :
  import_as m a env s =
  if bool_decide (m ∈ sys_modules s ∪ (stdlib_modules ∪ installed env)) then
    (log (EvBind a) (set_global a (PyModule m)
       (log (EvImport m true) (cache_module m s))), Ok tt)
  else (log (EvImport m false) s, Raise (ModuleNotFoundError m)).
Proof.
  unfold import_as, bind. rewrite import_module_eq. by case_bool_decide.
Qed.

Lemma from_import_load_eq env s :
  from_import "pythonnet" "load" env s =
  if bool_decide ("pythonnet" ∈ sys_modules s ∪ (stdlib_modules ∪ installed env)) then
    (log (EvBind "load") (set_global "load" (PyFunction "pythonnet" "load")
       (log (EvImport "pythonnet" true) (cache_module "pythonnet" s))), Ok tt)
  else (log (EvImport "pythonnet" false) s,
        Raise (ModuleNotFoundError "pythonnet")).
Proof.
  unfold from_import, bind. rewrite import_module_eq. by case_bool_decide.
Qed.

Lemma import_namespace_as_eq env ns a s :
  import_namespace_as ns a env s =
  if bool_decide (ns ∈ sys_modules s ∪ namespaces s) then
    (log (EvBind a) (set_global a (ClrNamespace ns)
       (log (EvImport ns true) (cache_module ns s))), Ok tt)
  else (log (EvImport ns false) s, Raise (ModuleNotFoundError ns)).
Proof.
  unfold import_namespace_as, bind. rewrite import_namespace_eq.
  by case_bool_decide.
Qed.

Lemma from_namespace_import_eq env x s :
  from_namespace_import "System" x env s =
  if bool_decide ("System" ∈ sys_modules s ∪ namespaces s) then
    if bool_decide (x ∈ system_types env) then
      (log (EvBind x) (set_global x (ClrType "System" x)
         (log (EvImport "System" true) (cache_module "System" s))), Ok tt)
    else (log (EvImport "System" true) (cache_module "System" s),
          Raise (ImportError "System" x))
  else (log (EvImport "System" false) s,
        Raise (ModuleNotFoundError "System")).
Proof.
  unfold from_namespace_import, bind. rewrite import_namespace_eq.
  case_bool_decide; [|done]. unfold module_attr.
  repeat case_bool_decide; try done; naive_solver.
Qed.

(** Once line 1 has run, [load] is the bridge's function. *)
Lemma call_load_eq env rt s :
  globals s !! "load" = Some (PyFunction "pythonnet" "load") →
  call_load rt env s = pythonnet_load env rt s.
Proof.
  intros H. unfold call_load, bind, lookup_name. rewrite H.
  by rewrite bool_decide_eq_true_2.
Qed.

(** Once lines 5 and 6 have run, line 8 is the loader applied to the
    absolute path. *)
Lemma add_reference_eq env lit s :
  globals s !! "clr" = Some (PyModule "clr") →
  globals s !! "os" = Some (PyModule "os") →
  add_reference lit env s = clr_AddReference env (Path.abspath (cwd env) lit) s.
Proof.
  intros Hc Ho. unfold add_reference, bind, lookup_name, os_path_abspath, ret.
  rewrite Hc. rewrite bool_decide_eq_true_2 by done.
  rewrite Ho. by rewrite bool_decide_eq_true_2.
Qed.

(** [os] belongs to the standard library: line 5 cannot fail. *)
Lemma os_importable env (X : gset string) :
  "os" ∈ X ∪ (stdlib_modules ∪ installed env).
Proof. unfold stdlib_modules. set_solver. Qed.

(** A module cached under another name does not help an import. *)
Lemma in_cache_skip (m a : string) (X Y : gset string) :
  m ≠ a → m ∈ {[ a ]} ∪ X ∪ Y ↔ m ∈ X ∪ Y.
Proof. set_solver. Qed.

(** The [System] namespace registered by the bridge does not help the
    import of another namespace. *)
Lemma in_system_skip (m : string) (X E N : gset string) :
  m ≠ "System" → m ∈ X ∪ (E ∪ ({[ "System" ]} ∪ N)) ↔ m ∈ X ∪ (E ∪ N).
Proof. set_solver. Qed.

Lemma module_guard (m : string) (X I : gset string) :
  m ≠ "os" → m ∈ X ∪ (stdlib_modules ∪ I) → m ∈ X ∨ m ∈ I.
Proof. unfold stdlib_modules. set_solver. Qed.

Lemma module_guard_not (m : string) (X I : gset string) :
  m ∉ X ∪ (stdlib_modules ∪ I) → (m ∉ X) ∧ (m ∉ I).
Proof. set_solver. Qed.

Lemma namespace_guard_not (ns : string) (X E N : gset string) :
  ns ∉ X ∪ (E ∪ N) → (ns ∉ X) ∧ (ns ∉ E) ∧ (ns ∉ N).
Proof. set_solver. Qed.

Lemma system_registered (X E N : gset string) :
  "System" ∈ X ∪ (E ∪ ({[ "System" ]} ∪ N)).
Proof. set_solver. Qed.

Lemma namespace_guard (ns : string) (X E N : gset string) :
  ns ∈ X ∪ (E ∪ N) → ns ∈ X ∨ ns ∈ N ∨ ns ∈ E.
Proof. set_solver. Qed.

Lemma events_of_app s s' t : trace s' = trace s ++ t → events_of s s' = t.
Proof. intros H. unfold events_of. rewrite H. apply drop_app_length. Qed.

(** ** Proof automation: walking through a run *)

Ltac proj :=
  cbn [globals sys_modules bridge assemblies namespaces trace
       log set_global cache_module activate_bridge register_assembly
       extend_log fst snd] in *.

Ltac look :=
  cbn [globals log set_global cache_module activate_bridge register_assembly
       extend_log];
  repeat first [rewrite lookup_insert_eq | rewrite lookup_insert_ne by done];
  done.

(** One statement: rewrite with its equation and split on its guard. *)
Ltac run_step :=
  first
  [ rewrite from_import_load_eq; case_bool_decide
  | rewrite import_as_eq; case_bool_decide;
    [|try match goal with
          | H : "os" ∉ _ |- _ => destruct H; apply os_importable
          end]
  | rewrite import_namespace_as_eq; case_bool_decide
  | rewrite from_namespace_import_eq; case_bool_decide; [case_bool_decide|]
  | rewrite call_load_eq by look; unfold pythonnet_load;
    let Hb := fresh "Hbridge" in
    match goal with |- context [bridge ?s] => destruct (bridge s) eqn:Hb end;
    [|case_bool_decide]
  | rewrite add_reference_eq by look; unfold clr_AddReference;
    fold (resolved_artifact) ;
    let Hf := fresh "Hfile" in
    let Hl := fresh "Hloadable" in
    match goal with |- context [files ?e !! ?p] =>
      destruct (files e !! p) as [?f|] eqn:Hf;
      [destruct (loadable f) eqn:Hl|]
    end ].

Ltac norm_guards :=
  rewrite ?in_cache_skip in * by done;
  rewrite ?in_system_skip in * by done.

Ltac run_cases :=
  unfold run, bootstrap, import_; cbn [exec take];
  repeat (run_step; proj; norm_guards).

(** Every way a run from [s] can go, each with its guards as hypotheses and
    the final session written out. *)
Ltac run_inv env s :=
  let s' := fresh "s'" in
  let c := fresh "c" in
  let E := fresh "E" in
  destruct (run env s) as [s' c] eqn:E; revert E;
  run_cases; intros [= <- <-]; proj.

(** The log of the run, as a literal list after [trace s]. *)
Ltac norm_events :=
  unfold events_of; proj; rewrite <- ?app_assoc; rewrite ?drop_app_length;
  cbn [app].

Ltac by_index i H :=
  do 21 (try (destruct i as [|i]; cbn [lookup list_lookup] in H;
              [try discriminate H|]));
  try discriminate H.

(** ** The behaviours of the script *)

(** Case analysis on membership in a literal list. *)
Ltac inv_in H :=
  repeat (apply elem_of_cons in H; destruct H as [H|H]; [try discriminate H|]);
  try (apply elem_of_nil in H; destruct H).

Ltac in_here :=
  solve [repeat first [apply list_elem_of_here | apply list_elem_of_further]].

Lemma run_behaviours (env : Env) (s : Session) :
  (events_of s (run env s).1, (run env s).2) ∈ behaviours (resolved_artifact env).
Proof.
  run_inv env s; norm_events;
    unfold behaviours, failures, script_events, resolved_artifact;
    cbn [map take app]; in_here.
Qed.

Lemma run_globals (env : Env) (s : Session) :
  globals (run env s).1 = replay (events_of s (run env s).1) (globals s).
Proof.
  run_inv env s; norm_events; reflexivity.
Qed.

Lemma run_trace (env : Env) (s : Session) :
  trace (run env s).1 = trace s ++ events_of s (run env s).1.
Proof.
  run_inv env s; norm_events; by rewrite <- ?app_assoc.
Qed.

(** ** Path resolution *)

Lemma normalize_app (a b kept : list string) :
  Path.normalize kept (a ++ b) = Path.normalize (rev (Path.normalize kept a)) b.
Proof.
  revert kept. induction a as [|c a IH]; intros kept; simpl.
  - by rewrite rev_involutive.
  - repeat case_bool_decide; apply IH.
Qed.

Lemma normalize_plain (c : string) (kept cs : list string) :
  c ≠ EmptyString → c ≠ "." → c ≠ ".." →
  Path.normalize kept (c :: cs) = Path.normalize (c :: kept) cs.
Proof.
  intros H1 H2 H3. simpl.
  rewrite bool_decide_eq_false_2 by (intros [?|?]; done).
  by rewrite bool_decide_eq_false_2.
Qed.

Lemma normalize_dotdot (kept cs : list string) :
  Path.normalize kept (".." :: cs) = Path.normalize (tail kept) cs.
Proof. reflexivity. Qed.

(** The literal climbs one directory from the base and then descends into
    the build output. *)
Lemma abspath_artifact_literal (base : Path.t) :
  Path.abspath base artifact_literal =
  Path.parent (Path.normpath base)
  ++ ["src"; "DerivaSharp"; "bin"; "Release"; "net9.0"; "win-x64"; "publish";
      "DerivaSharp.dll"].
Proof.
  unfold Path.abspath, Path.normpath, Path.parent.
  change (Path.is_absolute artifact_literal) with false. cbv iota.
  change (Path.split_on "/" artifact_literal) with
    [".."; "src"; "DerivaSharp"; "bin"; "Release"; "net9.0"; "win-x64";
     "publish"; "DerivaSharp.dll"].
  rewrite normalize_app, normalize_dotdot.
  rewrite !normalize_plain by done.
  simpl. by rewrite <- !app_assoc.
Qed.

Lemma behaviours_add_reference (p0 p : Path.t) ok t c :
  (t, c) ∈ behaviours p0 → EvAddReference p ok ∈ t → p = p0.
Proof.
  unfold behaviours, failures, script_events. cbn [map take app].
  intros Hb Hin.
  inv_in Hb; injection Hb as -> ->; inv_in Hin; congruence.
Qed.

(** C1: the path handed to the assembly loader comes from a relative
    literal that [os.path.abspath] resolves against the current working
    directory of the process: it is the parent of that directory followed by
    src/DerivaSharp/bin/Release/net9.0/win-x64/publish/DerivaSharp.dll, so it
    names the Release configuration, the net9.0 target and the win-x64
    platform.  It is the path relative to the script's own location exactly
    when the working directory and the script's directory have the same
    parent -- so when the session runs in the script's directory, and also
    when it runs in a directory beside it. *)
Theorem C1_artifact_path_resolution (env : Env) (s : Session) (p : Path.t) (ok : bool) :
  EvAddReference p ok ∈ events_of s (run env s).1 →
  Path.is_absolute artifact_literal = false
  ∧ p = Path.abspath (cwd env) artifact_literal
  ∧ p = Path.parent (Path.normpath (cwd env))
        ++ ["src"; "DerivaSharp"; "bin"; "Release"; "net9.0"; "win-x64";
            "publish"; "DerivaSharp.dll"]
  ∧ (cwd env = script_dir env →
     p = Path.abspath (script_dir env) artifact_literal)
  ∧ (p = Path.abspath (script_dir env) artifact_literal
     ↔ Path.parent (Path.normpath (cwd env))
       = Path.parent (Path.normpath (script_dir env))).
Proof.
  intros Hin.
  assert (p = resolved_artifact env) as ->
    by (eapply behaviours_add_reference; [apply run_behaviours|done]).
  unfold resolved_artifact. split; [done|]. split; [done|].
  split; [apply abspath_artifact_literal|]. split; [by intros ->|].
  rewrite !abspath_artifact_literal. split.
  - by intros ?%app_inv_tail.
  - by intros ->.
Qed.

Lemma C1_artifact_path_resolution_witness :
  EvAddReference artifact_path true ∈ events_of new_session (run good_env new_session).1
  ∧ artifact_path = Path.abspath (cwd good_env) artifact_literal.
Proof.
  assert (EvAddReference artifact_path true
          ∈ events_of new_session (run good_env new_session).1) as Hin.
  { vm_compute. in_here. }
  split; [exact Hin|].
  exact (proj1 (proj2 (C1_artifact_path_resolution good_env new_session
                         artifact_path true Hin))).
Defined.

(** C1 as stated fails: started from /home/user, the script asks the loader
    for /home/src/..., not for the path next to the script, and stops with a
    file-not-found error although the artifact is in place. *)
Lemma C1_counterexample :
  ¬ resolved_against script_dir
  ∧ run elsewhere_env new_session
    = ({| sys_modules := {[ "clr"; "os"; "pythonnet" ]};
          bridge := Some "coreclr"; assemblies := ∅;
          namespaces := {[ "System" ]};
          globals := {[ "load" := PyFunction "pythonnet" "load";
                        "os" := PyModule "os"; "clr" := PyModule "clr" ]};
          trace := [ EvImport "pythonnet" true; EvBind "load";
                     EvLoadRuntime "coreclr" true;
                     EvImport "os" true; EvBind "os";
                     EvImport "clr" true; EvBind "clr";
                     EvAddReference
                       ["home"; "src"; "DerivaSharp"; "bin"; "Release";
                        "net9.0"; "win-x64"; "publish"; "DerivaSharp.dll"]
                       false ] |},
        Uncaught (FileNotFoundException
                    ["home"; "src"; "DerivaSharp"; "bin"; "Release"; "net9.0";
                     "win-x64"; "publish"; "DerivaSharp.dll"]))
  ∧ Path.abspath (script_dir elsewhere_env) artifact_literal = artifact_path
  ∧ files elsewhere_env !! artifact_path = Some good_artifact.
Proof.
  assert (run elsewhere_env new_session
    = ({| sys_modules := {[ "clr"; "os"; "pythonnet" ]};
          bridge := Some "coreclr"; assemblies := ∅;
          namespaces := {[ "System" ]};
          globals := {[ "load" := PyFunction "pythonnet" "load";
                        "os" := PyModule "os"; "clr" := PyModule "clr" ]};
          trace := [ EvImport "pythonnet" true; EvBind "load";
                     EvLoadRuntime "coreclr" true;
                     EvImport "os" true; EvBind "os";
                     EvImport "clr" true; EvBind "clr";
                     EvAddReference
                       ["home"; "src"; "DerivaSharp"; "bin"; "Release";
                        "net9.0"; "win-x64"; "publish"; "DerivaSharp.dll"]
                       false ] |},
        Uncaught (FileNotFoundException
                    ["home"; "src"; "DerivaSharp"; "bin"; "Release"; "net9.0";
                     "win-x64"; "publish"; "DerivaSharp.dll"]))) as Hrun
    by (vm_compute; reflexivity).
  split; [|split; [exact Hrun|split; vm_compute; reflexivity]].
  intros H.
  specialize (H elsewhere_env new_session
    ["home"; "src"; "DerivaSharp"; "bin"; "Release"; "net9.0"; "win-x64";
     "publish"; "DerivaSharp.dll"] false).
  rewrite Hrun in H. unfold events_of in H. simpl in H.
  discriminate H. in_here.
Qed.

(** ** What a run tells about where it started *)

Ltac fact_bridge :=
  intros Hin; try discriminate Hin;
  (split;
   [first [left; eexists; eassumption | right; assumption]
   |eexists; first [eassumption | reflexivity]]).
Ltac fact_artifact :=
  intros p Hin; try discriminate Hin;
  (split; [eexists; split; eassumption | clear; set_solver]).
Ltac fact_module :=
  intros m Hm Hin; inv_in Hm; subst m; inv_in Hin;
  match goal with
  | H : ?n ∈ _ ∪ (stdlib_modules ∪ _) |- ?n ∈ _ ∨ _ =>
      refine (module_guard _ _ _ _ H); done
  end.
Ltac fact_namespace :=
  intros ns Hns Hin; inv_in Hns; subst ns; inv_in Hin;
  match goal with
  | H : ?n ∈ _ ∪ (exposes _ ∪ _) |- ?n ∈ _ ∨ _ =>
      destruct (namespace_guard _ _ _ _ H) as [?|[?|?]];
      [left|right; left|right; right; eexists; split; [eassumption|]];
      assumption
  end.
Ltac not_in :=
  match goal with
  | H : ?n ∉ _ ∪ (stdlib_modules ∪ _) |- ?n ∉ _ =>
      destruct (module_guard_not _ _ _ H) as [? ?]; assumption
  | H : ?n ∉ _ ∪ (exposes _ ∪ _) |- ?n ∉ _ =>
      destruct (namespace_guard_not _ _ _ _ H) as (? & ? & ?); assumption
  | H : "System" ∉ _ |- _ => destruct H; apply system_registered
  end.
Ltac fact_no_module :=
  intros m Hc; try discriminate Hc; injection Hc as <-;
  (split; [not_in|]);
  (split; [intros Hm; inv_in Hm; not_in|]);
  (split;
   [intros Hm; inv_in Hm;
    (split; [not_in|intros f' Hf';
             match goal with
             | Hf : _ = Some ?f |- _ =>
                 assert (f' = f) as -> by congruence; not_in
             end])
   |intros Hm; try discriminate Hm;
    first [eexists; eassumption | not_in]]).

Lemma run_facts (env : Env) (s : Session) :
  run_facts_of env s (run env s).1 (run env s).2.
Proof.
  run_inv env s.
  all: split; norm_events;
    unfold runtime_installed, artifact_present_and_compatible,
      artifact_missing, resolved_artifact, python_modules, domain_namespaces,
      utility_modules.
  all: try (intros Hin; discriminate Hin).
  all: try (intros ? Hin; discriminate Hin).
  all: try (intros m Hm Hin; inv_in Hm; subst m; inv_in Hin; fail).
  all: try fact_bridge.
  all: try fact_artifact.
  all: try (intros Hc; assumption).
  all: try (intros Hc; split; assumption).
  all: try (intros p Hc; assumption).
  all: try (intros p Hc; eexists; split; eassumption).
  all: try fact_module.
  all: try fact_namespace.
  all: try fact_no_module.
Qed.

(** In a literal log, the bridge is started at position 2 and the loader is
    called, if at all, at position 7. *)
Lemma behaviours_order (p0 : Path.t) t c :
  (t, c) ∈ behaviours p0 →
  (∀ i p ok, t !! i = Some (EvAddReference p ok) →
             i = 7 ∧ t !! 2 = Some (EvLoadRuntime "coreclr" true)
             ∧ t !! 4 = Some (EvBind "os") ∧ t !! 6 = Some (EvBind "clr"))
  ∧ (∀ i ok, t !! i = Some (EvLoadRuntime "coreclr" ok) →
              i = 2 ∧ (ok = false → c = Uncaught (RuntimeError "coreclr")))
  ∧ (c = Normal → t !! 2 = Some (EvLoadRuntime "coreclr" true)).
Proof.
  unfold behaviours, failures, script_events. cbn [map take app].
  intros Hb. inv_in Hb; injection Hb as -> ->.
  all: split; [intros i p ok Hi; by_index i Hi; done|].
  all: split; [intros i ok Hi; by_index i Hi; injection Hi as <-; done|].
  all: done.
Qed.

(** C2: in every run the bridge is started before the assembly loader is
    called (every loader call in the log comes after a [load("coreclr")]
    that returned); when starting the bridge fails -- no runtime is loaded
    yet and none can be found -- the run ends in an exception and the loader
    is never called. *)
Theorem C2_bridge_before_artifact (env : Env) (s : Session) :
  (∀ i p ok,
     events_of s (run env s).1 !! i = Some (EvAddReference p ok) →
     ∃ j, j < i
          ∧ events_of s (run env s).1 !! j = Some (EvLoadRuntime "coreclr" true))
  ∧ (EvLoadRuntime "coreclr" false ∈ events_of s (run env s).1 →
     ¬ load_attempted (events_of s (run env s).1))
  ∧ (bridge s = None → ¬ runtime_installed env →
     (run env s).2 ≠ Normal
     ∧ ¬ load_attempted (events_of s (run env s).1)).
Proof.
  pose proof (run_behaviours env s) as Hb.
  pose proof (ok_bridge _ _ _ _ (run_facts env s)) as Hok.
  apply behaviours_order in Hb as (Hord & Hpos & Hnormal).
  assert (bridge s = None → ¬ runtime_installed env →
          ¬ load_attempted (events_of s (run env s).1)) as Hnever.
  { intros Hnone Hmissing (p & ok & (i & Hi)%list_elem_of_lookup).
    destruct (Hord i p ok Hi) as (_ & Hload & _).
    destruct Hok as [[[rt Hrt]|?] _]; [done|congruence|done]. }
  split; [|split].
  - intros i p ok Hi. destruct (Hord i p ok Hi) as (-> & Hload & _).
    exists 2. split; [lia|done].
  - intros (k & Hk)%list_elem_of_lookup (p & ok & (i & Hi)%list_elem_of_lookup).
    destruct (Hord i p ok Hi) as (_ & Hload & _).
    destruct (Hpos k _ Hk) as [-> _]. congruence.
  - intros Hnone Hmissing. split; [|by apply Hnever].
    intros Hn.
    destruct Hok as [[[rt Hrt]|?] _]; [by apply Hnormal|congruence|done].
Qed.

Lemma C2_bridge_before_artifact_witness :
  (events_of new_session (run good_env new_session).1 !! 7
   = Some (EvAddReference artifact_path true)
   ∧ ∃ j, j < 7 ∧ events_of new_session (run good_env new_session).1 !! j
                  = Some (EvLoadRuntime "coreclr" true))
  ∧ (bridge new_session = None ∧ ¬ runtime_installed no_runtime_env
     ∧ (run no_runtime_env new_session).2 ≠ Normal
     ∧ ¬ load_attempted (events_of new_session (run no_runtime_env new_session).1)).
Proof.
  assert (events_of new_session (run good_env new_session).1 !! 7
          = Some (EvAddReference artifact_path true)) as H7
    by (vm_compute; reflexivity).
  assert (¬ runtime_installed no_runtime_env) as Hmissing
    by (vm_compute; discriminate).
  split.
  - split; [exact H7|].
    exact (proj1 (C2_bridge_before_artifact good_env new_session) 7 _ _ H7).
  - split; [reflexivity|]. split; [exact Hmissing|].
    exact (proj2 (proj2 (C2_bridge_before_artifact no_runtime_env new_session))
             eq_refl Hmissing).
Defined.

(** ** Names bound by a run *)

Lemma dom_replay (t : list Event) (g : gmap string Obj) :
  dom (replay t g) = list_to_set (names_bound_in t) ∪ dom g.
Proof.
  revert g. induction t as [|ev t IH]; intros g.
  - set_solver.
  - unfold replay, names_bound_in in *. cbn [foldl omap list_omap].
    rewrite IH. destruct ev; cbn [list_to_set]; try done.
    rewrite dom_insert_L. set_solver.
Qed.

(** The names bound after a run are those bound before and those the log
    says the run bound. *)
Lemma run_bound_names (env : Env) (s : Session) :
  bound_names (run env s).1
  = list_to_set (names_bound_in (events_of s (run env s).1)) ∪ bound_names s.
Proof. unfold bound_names. rewrite run_globals. apply dom_replay. Qed.

Lemma behaviours_names (p0 : Path.t) t c :
  (t, c) ∈ behaviours p0 →
  names_bound_in t = take (names_after c) (extra_names ++ advertised).
Proof.
  unfold behaviours, failures, script_events. cbn [map take app].
  intros Hb. inv_in Hb; injection Hb as -> ->; reflexivity.
Qed.

Lemma run_names (env : Env) (s : Session) :
  bound_names (run env s).1
  = list_to_set (take (names_after (run env s).2) (extra_names ++ advertised))
    ∪ bound_names s.
Proof.
  rewrite run_bound_names.
  by rewrite (behaviours_names _ _ _ (run_behaviours env s)).
Qed.

(** All cases of a run at once: the literal log and completion, the names
    bound, and the facts about the start. *)
Ltac run_table env s :=
  let Hb := fresh "Hb" in
  let Hn := fresh "Hnames" in
  let Hf := fresh "Hfacts" in
  let Ht := fresh "Ht" in
  pose proof (run_behaviours env s) as Hb;
  pose proof (run_names env s) as Hn;
  pose proof (run_facts env s) as Hf;
  destruct (run env s) as [?s' ?c]; cbn [fst snd] in *;
  unfold behaviours, failures, script_events in Hb; cbn [map take app] in Hb;
  inv_in Hb; injection Hb as Ht ->; rewrite ?Ht in *;
  cbn [names_after step_of String.eqb Ascii.eqb Bool.eqb take app extra_names
       advertised list_to_set] in Hn.

(** C10: the script binds [load], [os] and [clr], which are not among the
    advertised names; [os] and [clr] are bound before the assembly loader is
    called, so when the run ends in a failure of the loader all three are
    bound and no advertised name has been bound by the run. *)
Theorem C10_extra_names (env : Env) (s : Session) :
  (∀ x, x ∈ extra_names → x ∉ advertised)
  ∧ ((run env s).2 = Normal →
     all_bound (extra_names ++ advertised) (run env s).1)
  ∧ (∀ i p ok,
       events_of s (run env s).1 !! i = Some (EvAddReference p ok) →
       ∃ j k, j < i ∧ k < i
              ∧ events_of s (run env s).1 !! j = Some (EvBind "os")
              ∧ events_of s (run env s).1 !! k = Some (EvBind "clr"))
  ∧ (∀ e, (run env s).2 = Uncaught e → load_failure e = true →
          all_bound extra_names (run env s).1
          ∧ (none_bound advertised s → none_bound advertised (run env s).1)).
Proof.
  split; [|split; [|split]].
  - unfold extra_names, advertised. intros x Hx Ha.
    inv_in Hx; subst x; inv_in Ha.
  - intros Hc x Hx. rewrite run_names, Hc. set_solver.
  - intros i p ok Hi.
    destruct (behaviours_order _ _ _ (run_behaviours env s)) as (Hord & _).
    destruct (Hord i p ok Hi) as (-> & _ & Hos & Hclr).
    exists 4, 6. repeat split; (lia || done).
  - intros e Hc Hl. unfold all_bound, none_bound.
    rewrite run_names, Hc.
    assert (names_after (Uncaught e) = 3) as ->
      by (destruct e; try discriminate Hl; reflexivity).
    unfold extra_names, advertised. cbn [take app].
    split; [set_solver|].
    intros Hs x Hx. specialize (Hs x Hx). inv_in Hx; subst x; set_solver.
Qed.

Lemma C10_extra_names_witness :
  (run no_artifact_env new_session).2
  = Uncaught (FileNotFoundException artifact_path)
  ∧ all_bound extra_names (run no_artifact_env new_session).1
  ∧ none_bound advertised (run no_artifact_env new_session).1.
Proof.
  assert ((run no_artifact_env new_session).2
          = Uncaught (FileNotFoundException artifact_path)) as Hc
    by (vm_compute; reflexivity).
  assert (none_bound advertised new_session) as Hnone
    by (intros x _; apply not_elem_of_empty).
  destruct (proj2 (proj2 (proj2 (C10_extra_names no_artifact_env new_session)))
              _ Hc eq_refl) as [Hall Hadv].
  exact (conj Hc (conj Hall (Hadv Hnone))).
Defined.

(** ** Utility imports come before the domain namespaces *)

Lemma domain_names_late (k : nat) (x : string) :
  k ≤ 6 → x ∈ domain_names → x ∉ take k (extra_names ++ advertised).
Proof.
  unfold domain_names, extra_names, advertised. intros Hk Hx Hin.
  do 7 (destruct k as [|k]; [cbn [take app] in Hin; inv_in Hx; subst x; inv_in Hin|]).
  lia.
Qed.

(** A run that never got a utility module bound at most the six names that
    come before the domain namespaces, and did not complete. *)
Lemma behaviours_utility (p0 : Path.t) t c m :
  (t, c) ∈ behaviours p0 → m ∈ utility_modules → EvImport m true ∉ t →
  c ≠ Normal ∧ names_after c ≤ 5.
Proof.
  unfold behaviours, failures, script_events, utility_modules.
  cbn [map take app].
  intros Hb Hm Hnot. inv_in Hb; injection Hb as -> ->.
  all: try (split; [done|cbn; lia]).
  all: destruct Hnot; inv_in Hm; subst m; in_here.
Qed.

Lemma behaviours_utility_failed (p0 : Path.t) t c m :
  (t, c) ∈ behaviours p0 → m ∈ utility_modules →
  c = Uncaught (ModuleNotFoundError m) →
  names_after c ≤ 5
  ∧ t !! 2 = Some (EvLoadRuntime "coreclr" true)
  ∧ t !! 7 = Some (EvAddReference p0 true)
  ∧ (∀ ns, EvImport ns true ∈ t → ns ∉ domain_namespaces).
Proof.
  unfold behaviours, failures, script_events, utility_modules, domain_namespaces.
  cbn [map take app].
  intros Hb Hm Hc. inv_in Hb; injection Hb as -> ->.
  all: try discriminate Hc; injection Hc as <-; inv_in Hm.
  all: split; [cbn; lia|]; split; [done|]; split; [done|].
  all: intros ns Hin Hns; inv_in Hns; subst ns; inv_in Hin.
Qed.

(** C9: when a utility module cannot be imported (it is neither installed
    nor already imported), the run stops before any of Instruments,
    PricingEngines and DateOnly is bound; and a run that stops on the import
    of a utility module had its bridge started and the artifact loaded, and
    never tried a domain namespace. *)
Theorem C9_utility_failure_aborts (env : Env) (s : Session) (m : string) :
  m ∈ utility_modules →
  none_bound domain_names s →
  (m ∉ installed env → m ∉ sys_modules s →
   (run env s).2 ≠ Normal ∧ none_bound domain_names (run env s).1)
  ∧ ((run env s).2 = Uncaught (ModuleNotFoundError m) →
     none_bound domain_names (run env s).1
     ∧ is_Some (bridge (run env s).1)
     ∧ EvAddReference (resolved_artifact env) true ∈ events_of s (run env s).1
     ∧ (∀ ns, ns ∈ domain_namespaces →
              EvImport ns true ∉ events_of s (run env s).1)).
Proof.
  intros Hm Hs.
  assert (∀ k, k ≤ 5 →
            bound_names (run env s).1
            = list_to_set (take k (extra_names ++ advertised)) ∪ bound_names s →
            none_bound domain_names (run env s).1) as Hlate.
  { intros k Hk Heq x Hx. rewrite Heq.
    pose proof (domain_names_late k x ltac:(lia) Hx). specialize (Hs x Hx).
    set_solver. }
  split.
  - intros Hinst Hcache.
    destruct (behaviours_utility _ _ _ m (run_behaviours env s) Hm) as [Hc Hk].
    + intros Hin.
      destruct (ok_module _ _ _ _ (run_facts env s) m) as [?|?]; try done.
      unfold python_modules. by do 2 apply list_elem_of_further.
    + split; [done|]. eapply Hlate; [exact Hk|apply run_names].
  - intros Hc.
    destruct (behaviours_utility_failed _ _ _ m (run_behaviours env s) Hm Hc)
      as (Hk & Hload & Href & Hns).
    split; [eapply Hlate; [exact Hk|apply run_names]|].
    split; [by apply (ok_bridge _ _ _ _ (run_facts env s))|].
    split; [by eapply list_elem_of_lookup_2|]. intros ns Hin Hev. by eapply Hns.
Qed.

Lemma C9_utility_failure_aborts_witness :
  ("numpy" ∈ utility_modules ∧ none_bound domain_names new_session
   ∧ ("numpy" ∉ installed no_numpy_env) ∧ ("numpy" ∉ sys_modules new_session))
  ∧ (run no_numpy_env new_session).2 ≠ Normal
  ∧ none_bound domain_names (run no_numpy_env new_session).1.
Proof.
  assert ("numpy" ∈ utility_modules) as Hm by (vm_compute; in_here).
  assert (none_bound domain_names new_session) as Hs
    by (intros x _; apply not_elem_of_empty).
  assert ("numpy" ∉ installed no_numpy_env) as Hi by (vm_compute; discriminate).
  assert ("numpy" ∉ sys_modules new_session) as Hc by apply not_elem_of_empty.
  split; [exact (conj Hm (conj Hs (conj Hi Hc)))|].
  exact (proj1 (C9_utility_failure_aborts no_numpy_env new_session "numpy" Hm Hs)
           Hi Hc).
Defined.

(** ** Failures abort the run *)

(** Each exception is raised by one statement only. *)
Lemma stmt_raise_step (env : Env) (i : nat) (st : Stmt) (s s' : Session) e :
  bootstrap !! i = Some st → st env s = (s', Raise e) → step_of e = i.
Proof.
  intros Hi Hst.
  do 11 (destruct i as [|i];
         [injection Hi as <-; revert Hst;
          unfold from_import, import_, import_as, import_namespace_as,
            from_namespace_import, call_load, add_reference, bind,
            lookup_name, import_module, import_namespace, module_attr,
            pythonnet_load, os_path_abspath, clr_AddReference, bind_name,
            ret, raise;
          repeat case_match; intros [= <- <-]; try reflexivity;
          naive_solver|]).
  discriminate Hi.
Qed.

(** A run that ends in an exception failed at the statement that raises
    that exception. *)
Lemma run_fails_at (env : Env) (s : Session) (e : Exn) :
  (run env s).2 = Uncaught e → fails_at env s (step_of e) e (run env s).1.
Proof.
  destruct (run env s) as [s' c] eqn:Hrun. cbn [fst snd]. intros ->.
  apply exec_uncaught_inv in Hrun as (i & st & s_i & Hi & Hpre & Hst).
  rewrite (stmt_raise_step _ _ _ _ _ _ Hi Hst). by exists st, s_i.
Qed.





(** ** A missing artifact *)

Lemma advertised_late (k : nat) (x : string) :
  k ≤ 3 → x ∈ advertised → x ∉ take k (extra_names ++ advertised).
Proof.
  unfold extra_names, advertised. intros Hk Hx Hin.
  do 4 (destruct k as [|k]; [cbn [take app] in Hin; inv_in Hx; subst x; inv_in Hin|]).
  lia.
Qed.

(** A statement that fails is not inside a prefix that completed. *)
Lemma fails_at_prefix (env : Env) (s s' s_j : Session) i j e :
  fails_at env s i e s' → exec env (take j bootstrap) s = (s_j, Normal) → j ≤ i.
Proof.
  intros (st & s_i & Hi & Hpre & Hst) Hj.
  destruct (decide (j ≤ i)) as [|Hlt]; [done|exfalso].
  rewrite <- (take_drop (S i) (take j bootstrap)), exec_app in Hj.
  rewrite take_take, Nat.min_l in Hj by lia.
  rewrite (take_S_r _ _ _ Hi), exec_app, Hpre in Hj. simpl in Hj.
  rewrite Hst in Hj. done.
Qed.

(** With the artifact missing, a run ends in one of the four exceptions of
    the first five statements. *)
Lemma run_artifact_missing (env : Env) (s : Session) :
  artifact_missing env →
  ∃ e, (run env s).2 = Uncaught e
       ∧ e ∈ [ModuleNotFoundError "pythonnet"; RuntimeError "coreclr";
              ModuleNotFoundError "clr";
              FileNotFoundException (resolved_artifact env)]
       ∧ (∀ p, EvAddReference p true ∉ events_of s (run env s).1).
Proof.
  intros Hmiss.
  assert (¬ artifact_present_and_compatible env) as Hnot
    by (intros (f & Hf & _); unfold artifact_missing in Hmiss; congruence).
  run_table env s.
  all: try (destruct Hnot; eapply (ok_artifact _ _ _ _ Hfacts);
            rewrite Ht; reflexivity).
  all: try (destruct (bad_file _ _ _ _ Hfacts _ eq_refl) as (f & Hf & _);
            unfold artifact_missing in Hmiss; congruence).
  all: eexists; split; [reflexivity|]; split; [in_here|].
  all: intros p Hin; inv_in Hin.
Qed.

(** C4: with the artifact path missing the run fails no later
    than the artifact-load step -- at that step, with a file-not-found
    error, whenever the four statements before it complete -- and none of the
    six advertised names gets bound. *)
Theorem C4_artifact_missing (env : Env) (s : Session) :
  artifact_missing env →
  none_bound advertised s →
  ∃ e, (run env s).2 = Uncaught e
       ∧ step_of e ≤ artifact_load_step
       ∧ fails_at env s (step_of e) e (run env s).1
       ∧ ((∃ s4, exec env (take artifact_load_step bootstrap) s = (s4, Normal)) →
          e = FileNotFoundException (resolved_artifact env)
          ∧ step_of e = artifact_load_step)
       ∧ (∀ p, EvAddReference p true ∉ events_of s (run env s).1)
       ∧ none_bound advertised (run env s).1.
Proof.
  intros Hmiss Hs.
  destruct (run_artifact_missing env s Hmiss) as (e & Hc & He & Hnoload).
  exists e. split; [done|].
  assert (step_of e ≤ 4) as Hstep by (inv_in He; subst e; cbn; lia).
  split; [done|]. split; [by apply run_fails_at|].
  split; [|split; [done|]].
  - intros [s4 H4].
    pose proof (fails_at_prefix _ _ _ _ _ _ _ (run_fails_at env s e Hc) H4) as Hle.
    unfold artifact_load_step in *.
    inv_in He; subst e; cbn in Hle; try lia. done.
  - intros x Hx. rewrite run_names, Hc.
    assert (names_after (Uncaught e) ≤ 3) as Hk by (inv_in He; subst e; cbn; lia).
    pose proof (advertised_late _ x Hk Hx). specialize (Hs x Hx). set_solver.
Qed.

Lemma C4_artifact_missing_witness :
  artifact_missing no_artifact_env ∧ none_bound advertised new_session
  ∧ ∃ e, (run no_artifact_env new_session).2 = Uncaught e
         ∧ step_of e ≤ artifact_load_step
         ∧ none_bound advertised (run no_artifact_env new_session).1.
Proof.
  assert (artifact_missing no_artifact_env) as Hmiss by (vm_compute; reflexivity).
  assert (none_bound advertised new_session) as Hs
    by (intros x _; apply not_elem_of_empty).
  split; [exact Hmiss|]. split; [exact Hs|].
  destruct (C4_artifact_missing no_artifact_env new_session Hmiss Hs)
    as (e & Hc & Hstep & _ & _ & _ & Hnone).
  exact (ex_intro _ e (conj Hc (conj Hstep Hnone))).
Defined.

(** C4 as stated fails: with neither a runtime nor the artifact, the run
    fails at the bridge-initialization step, not at the artifact-load step,
    which is never reached. *)
Lemma C4_counterexample :
  artifact_missing no_runtime_env
  ∧ run no_runtime_env new_session
    = ({| sys_modules := {[ "pythonnet" ]}; bridge := None; assemblies := ∅;
          namespaces := ∅;
          globals := {[ "load" := PyFunction "pythonnet" "load" ]};
          trace := [EvImport "pythonnet" true; EvBind "load";
                    EvLoadRuntime "coreclr" false] |},
       Uncaught (RuntimeError "coreclr"))
  ∧ (∃ s', fails_at no_runtime_env new_session bridge_init_step
             (RuntimeError "coreclr") s')
  ∧ ¬ ∃ e s', fails_at no_runtime_env new_session artifact_load_step e s'.
Proof.
  assert ((run no_runtime_env new_session).2 = Uncaught (RuntimeError "coreclr"))
    as Hc by (vm_compute; reflexivity).
  pose proof (run_fails_at _ _ _ Hc) as Hfail.
  split; [vm_compute; reflexivity|]. split; [vm_compute; reflexivity|].
  split; [eexists; exact Hfail|].
  intros (e & s' & Hf).
  destruct (fails_at_unique _ _ _ _ _ _ _ _ Hfail Hf) as (Hi & _).
  discriminate Hi.
Qed.

(** ** The valid environment *)

Lemma names_after_full (c : Completion) :
  "DateOnly" ∈ take (names_after c) (extra_names ++ advertised) → c = Normal.
Proof.
  destruct c as [|e]; [done|]. intros Hin. exfalso. revert Hin.
  unfold names_after, extra_names, advertised.
  destruct (step_of e) as [|[|[|[|[|[|[|[|[|[|k]]]]]]]]]]; cbn [take app];
    intros Hin; inv_in Hin.
Qed.

(** C3: in every environment in which the bridge package and
    its [clr] module, the hosted runtime and the three utility modules are
    installed, the artifact is present, loadable and exposes both domain
    namespaces, and the runtime has the DateOnly type, one run in a new
    session completes and leaves all six advertised names bound, none of
    which was bound before; and a run in a new session binds all six only
    in such an environment. *)
Theorem C3_valid_environment (env : Env) :
  (valid_env env →
   (run env new_session).2 = Normal
   ∧ all_bound advertised (run env new_session).1
   ∧ none_bound advertised new_session)
  ∧ (all_bound advertised (run env new_session).1 → valid_env env).
Proof.
  split.
  - intros [Hpy Hrt Hclr (f & Hf & Hl & Hi & Hp) Hutil Hdate].
    assert ((run env new_session).2 = Normal) as Hc.
    { pose proof (run_facts env new_session) as Hfacts.
      pose proof (run_behaviours env new_session) as Hb.
      destruct (run env new_session) as [s' c]. cbn [fst snd] in *.
      unfold behaviours, failures in Hb. cbn [map] in Hb.
      apply elem_of_cons in Hb as [[= _ ->]|Hb]; [done|exfalso].
      unfold utility_modules in Hutil.
      inv_in Hb; injection Hb as _ ->.
      - destruct (no_module _ _ _ _ Hfacts _ eq_refl) as (_ & Hn & _).
        apply Hn; [in_here|done].
      - by destruct (no_bridge _ _ _ _ Hfacts eq_refl).
      - destruct (no_module _ _ _ _ Hfacts _ eq_refl) as (_ & Hn & _).
        apply Hn; [in_here|done].
      - pose proof (no_file _ _ _ _ Hfacts _ eq_refl) as Hm.
        unfold artifact_missing in Hm. congruence.
      - destruct (bad_file _ _ _ _ Hfacts _ eq_refl) as (f' & ? & ?). congruence.
      - destruct (no_module _ _ _ _ Hfacts _ eq_refl) as (_ & Hn & _).
        apply Hn; [in_here|apply Hutil; in_here].
      - destruct (no_module _ _ _ _ Hfacts _ eq_refl) as (_ & Hn & _).
        apply Hn; [in_here|apply Hutil; in_here].
      - destruct (no_module _ _ _ _ Hfacts _ eq_refl) as (_ & Hn & _).
        apply Hn; [in_here|apply Hutil; in_here].
      - destruct (no_module _ _ _ _ Hfacts _ eq_refl) as (_ & _ & Hn & _).
        destruct Hn as [_ Hn]; [in_here|]. by apply (Hn f).
      - destruct (no_module _ _ _ _ Hfacts _ eq_refl) as (_ & _ & Hn & _).
        destruct Hn as [_ Hn]; [in_here|]. by apply (Hn f).
      - destruct (no_module _ _ _ _ Hfacts _ eq_refl) as (_ & _ & _ & Hn).
        by destruct Hn as [? ?].
      - by apply (no_date_type _ _ _ _ Hfacts). }
    split; [done|]. split; [|intros x _; apply not_elem_of_empty].
    intros x Hx. rewrite run_names, Hc. unfold advertised in *. set_solver.
  - intros Hall.
    assert ((run env new_session).2 = Normal) as Hc.
    { apply names_after_full.
      assert ("DateOnly" ∈ bound_names (run env new_session).1) as Hd
        by (apply Hall; in_here).
      rewrite run_names in Hd. apply elem_of_union in Hd as [Hd|Hd].
      - by apply elem_of_list_to_set in Hd.
      - by apply not_elem_of_empty in Hd. }
    pose proof (run_facts env new_session) as Hfacts.
    pose proof (run_behaviours env new_session) as Hb.
    destruct (run env new_session) as [s' c]. cbn [fst snd] in *. subst c.
    assert (events_of new_session s' = script_events (resolved_artifact env))
      as Ht.
    { unfold behaviours, failures in Hb. cbn [map] in Hb.
      apply elem_of_cons in Hb as [[= -> ]|Hb]; [done|].
      inv_in Hb; discriminate Hb. }
    assert (∀ m, m ∈ python_modules → m ∈ installed env) as Hmod.
    { intros m Hm.
      destruct (ok_module _ _ _ _ Hfacts m Hm) as [Hin|?]; [|by apply not_elem_of_empty in Hin|done].
      rewrite Ht. unfold python_modules, utility_modules in Hm.
      inv_in Hm; subst m; in_here. }
    assert (∀ ns, ns ∈ domain_namespaces →
              ∃ f, files env !! resolved_artifact env = Some f ∧ ns ∈ exposes f)
      as Hns.
    { intros ns Hn.
      destruct (ok_namespace _ _ _ _ Hfacts ns Hn) as [Hin|[Hin|?]];
        [|by apply not_elem_of_empty in Hin|by apply not_elem_of_empty in Hin|done].
      rewrite Ht. unfold domain_namespaces in Hn. inv_in Hn; subst ns; in_here. }
    destruct (ok_bridge _ _ _ _ Hfacts) as [[[? [=]]|Hrt] _];
      [by rewrite Ht|].
    destruct (ok_artifact _ _ _ _ Hfacts (resolved_artifact env))
      as [(f & Hf & Hl) _]; [by rewrite Ht|].
    split.
    + apply Hmod; in_here.
    + done.
    + apply Hmod; in_here.
    + exists f. split; [done|]. split; [done|].
      destruct (Hns "DerivaSharp.Instruments") as (f1 & Hf1 & H1); [in_here|].
      destruct (Hns "DerivaSharp.PricingEngines") as (f2 & Hf2 & H2); [in_here|].
      split; congruence.
    + intros m Hm. apply Hmod. unfold python_modules.
      by do 2 apply list_elem_of_further.
    + by apply (ok_date_type _ _ _ _ Hfacts).
Qed.

Lemma good_env_valid : valid_env good_env.
Proof.
  split.
  - vm_compute. reflexivity.
  - vm_compute. reflexivity.
  - vm_compute. reflexivity.
  - exists good_artifact. repeat split; vm_compute; reflexivity.
  - intros m Hm. unfold utility_modules in Hm.
    inv_in Hm; subst m; vm_compute; reflexivity.
  - vm_compute. reflexivity.
Defined.

Lemma C3_valid_environment_witness :
  valid_env good_env
  ∧ (run good_env new_session).2 = Normal
  ∧ all_bound advertised (run good_env new_session).1.
Proof.
  destruct (proj1 (C3_valid_environment good_env) good_env_valid)
    as (Hc & Hall & _).
  exact (conj good_env_valid (conj Hc Hall)).
Defined.

(** C3 as stated fails: with the runtime installed and the artifact present
    and compatible, but pandas not installed, the run stops at line 12 and
    only [plt] and [np] of the advertised names are bound. *)
Lemma C3_counterexample :
  runtime_installed no_pandas_env
  ∧ artifact_present_and_compatible no_pandas_env
  ∧ (run no_pandas_env new_session).2 = Uncaught (ModuleNotFoundError "pandas")
  ∧ bound_names (run no_pandas_env new_session).1
    = {[ "load"; "os"; "clr"; "plt"; "np" ]}
  ∧ ¬ all_bound advertised (run no_pandas_env new_session).1.
Proof.
  assert (bound_names (run no_pandas_env new_session).1
          = {[ "load"; "os"; "clr"; "plt"; "np" ]}) as Hn
    by (vm_compute; reflexivity).
  split; [vm_compute; reflexivity|].
  split; [exists good_artifact; split; vm_compute; reflexivity|].
  split; [vm_compute; reflexivity|]. split; [exact Hn|].
  intros Hall. specialize (Hall "pd"). rewrite Hn in Hall.
  assert ("pd" ∈ advertised) as Ha by (unfold advertised; in_here).
  specialize (Hall Ha). set_solver.
Qed.

(** ** An artifact without the PricingEngines namespace *)




(** ** Determinism *)

Lemma exec_ext (e1 e2 : Env) (prog : list Stmt) :
  Forall (λ st : Stmt, ∀ s, st e1 s = st e2 s) prog →
  ∀ s, exec e1 prog s = exec e2 prog s.
Proof.
  induction 1 as [|st prog Hst _ IH]; intros s; simpl; [done|].
  rewrite Hst. destruct (st e2 s) as [s' [[]|e]]; [apply IH|done].
Qed.

Section Agreement.
Variables e1 e2 : Env.
Hypothesis Hsame : same_ambient e1 e2.

Lemma import_module_agree (m : string) (s : Session) :
  m ∈ "os" :: python_modules → import_module e1 m s = import_module e2 m s.
Proof.
  intros Hm. unfold import_module.
  assert (bool_decide (m ∈ stdlib_modules ∪ installed e1)
          = bool_decide (m ∈ stdlib_modules ∪ installed e2)) as ->; [|done].
  apply bool_decide_ext. apply elem_of_cons in Hm as [->|Hm].
  - unfold stdlib_modules. set_solver.
  - pose proof (same_modules _ _ Hsame m Hm). set_solver.
Qed.

Lemma import_as_agree (m a : string) (s : Session) :
  m ∈ "os" :: python_modules → import_as m a e1 s = import_as m a e2 s.
Proof. intros Hm. unfold import_as, bind. by rewrite import_module_agree. Qed.

Lemma from_import_agree (m x : string) (s : Session) :
  m ∈ "os" :: python_modules → from_import m x e1 s = from_import m x e2 s.
Proof.
  intros Hm. unfold from_import, bind. rewrite import_module_agree by done.
  destruct (import_module e2 m s) as [s' [o|e]] eqn:Himp; [|done].
  assert (o = PyModule m) as ->
    by (unfold import_module in Himp; repeat case_match; by simplify_eq).
  done.
Qed.

Lemma call_load_agree (s : Session) :
  call_load "coreclr" e1 s = call_load "coreclr" e2 s.
Proof.
  unfold call_load, bind, pythonnet_load.
  destruct (lookup_name "load" s) as [s' [o|e]]; [|done].
  case_bool_decide; [|done]. destruct (bridge s'); [done|].
  assert (bool_decide ("coreclr" ∈ runtimes e1)
          = bool_decide ("coreclr" ∈ runtimes e2)) as ->; [|done].
  apply bool_decide_ext, (same_runtime _ _ Hsame).
Qed.

Lemma add_reference_agree (s : Session) :
  add_reference artifact_literal e1 s = add_reference artifact_literal e2 s.
Proof.
  unfold add_reference, bind, os_path_abspath, ret, clr_AddReference.
  pose proof (same_artifact _ _ Hsame) as Hfile.
  unfold resolved_artifact in Hfile. rewrite <- (same_cwd _ _ Hsame) in *.
  by rewrite Hfile.
Qed.

Lemma from_namespace_import_agree (s : Session) :
  from_namespace_import "System" "DateOnly" e1 s
  = from_namespace_import "System" "DateOnly" e2 s.
Proof.
  unfold from_namespace_import, bind.
  destruct (import_namespace "System" s) as [s' [o|e]] eqn:Himp; [|done].
  assert (o = ClrNamespace "System") as ->
    by (unfold import_namespace in Himp; repeat case_match; by simplify_eq).
  unfold module_attr.
  assert (bool_decide ("System" = "System" ∧ "DateOnly" ∈ system_types e1)
          = bool_decide ("System" = "System" ∧ "DateOnly" ∈ system_types e2))
    as ->; [|done].
  apply bool_decide_ext. pose proof (same_date_type _ _ Hsame). tauto.
Qed.

Lemma bootstrap_agree :
  Forall (λ st : Stmt, ∀ s, st e1 s = st e2 s) bootstrap.
Proof.
  unfold bootstrap, import_, python_modules, utility_modules.
  repeat apply Forall_cons_2; try apply Forall_nil_2; intros s.
  - apply from_import_agree. unfold python_modules. in_here.
  - apply call_load_agree.
  - apply import_as_agree. in_here.
  - apply import_as_agree. unfold python_modules. in_here.
  - apply add_reference_agree.
  - apply import_as_agree. unfold python_modules, utility_modules. in_here.
  - apply import_as_agree. unfold python_modules, utility_modules. in_here.
  - apply import_as_agree. unfold python_modules, utility_modules. in_here.
  - reflexivity.
  - reflexivity.
  - apply from_namespace_import_agree.
Qed.
End Agreement.

Lemma same_ambient_refl (env : Env) : same_ambient env env.
Proof. by split. Qed.

(** ** How a run ends, as a function of where it starts *)

Lemma run_outcome (env : Env) (s : Session) : (run env s).2 = outcome env s.
Proof.
  run_inv env s.
  all: unfold outcome, resolved_artifact.
  all: repeat first
    [ rewrite Hfile
    | rewrite Hloadable
    | rewrite (bool_decide_eq_true_2 (_ ∈ _)) by assumption
    | rewrite (bool_decide_eq_false_2 (_ ∈ _)) by assumption
    | rewrite (bool_decide_eq_true_2 (is_Some _ ∨ _))
        by first [left; rewrite Hbridge; by eexists | right; assumption]
    | rewrite (bool_decide_eq_false_2 (is_Some _ ∨ _))
        by (rewrite Hbridge; intros [[? [=]]|?]; done)
    | rewrite (bool_decide_eq_true_2 (bridge s = None)) by assumption
    | rewrite (bool_decide_eq_false_2 (bridge s = None)) by (rewrite Hbridge; done)
    | progress cbn [negb orb] ].
  all: try reflexivity.
  match goal with
  | H : "System" ∉ _ |- _ => exfalso; apply H; clear; set_solver
  end.
Qed.

(** The outcome looks at the environment only through what [same_ambient]
    compares, and at the session only through the state of the process. *)
Lemma outcome_agree (e1 e2 : Env) (s1 s2 : Session) :
  same_ambient e1 e2 → same_process s1 s2 → outcome e1 s1 = outcome e2 s2.
Proof.
  intros [Hmod Hrt Hcwd Hfile Hdate] [Hsm Hbr _ Hns].
  assert (resolved_artifact e1 = resolved_artifact e2) as Hpath
    by (unfold resolved_artifact; by rewrite Hcwd).
  assert (∀ m, m ∈ "pythonnet" :: "clr" :: utility_modules →
               bool_decide (m ∈ sys_modules s2 ∪ (stdlib_modules ∪ installed e1))
               = bool_decide (m ∈ sys_modules s2 ∪ (stdlib_modules ∪ installed e2)))
    as Himp.
  { intros m Hm. apply bool_decide_ext.
    pose proof (Hmod m Hm). set_solver. }
  unfold outcome. cbv beta zeta. rewrite Hfile, <- Hpath, Hbr, Hsm, Hns.
  unfold utility_modules in Himp.
  rewrite !Himp by in_here.
  rewrite (bool_decide_ext (is_Some (bridge s2) ∨ "coreclr" ∈ runtimes e1)
                           (is_Some (bridge s2) ∨ "coreclr" ∈ runtimes e2))
    by (unfold runtime_installed in Hrt; tauto).
  by rewrite (bool_decide_ext _ _ Hdate).
Qed.

(** A completion tells the whole log. *)
Lemma behaviours_functional (p : Path.t) t1 t2 c :
  (t1, c) ∈ behaviours p → (t2, c) ∈ behaviours p → t1 = t2.
Proof.
  unfold behaviours, failures. cbn [map].
  intros H1 H2.
  inv_in H1; injection H1 as -> ->; inv_in H2; injection H2 as ->; reflexivity.
Qed.

Lemma good_env_variant_same : same_ambient good_env good_env_variant.
Proof.
  split.
  - intros m Hm. unfold python_modules, utility_modules in Hm.
    inv_in Hm; subst m; split; intros _; vm_compute; reflexivity.
  - split; intros _; vm_compute; reflexivity.
  - reflexivity.
  - vm_compute. reflexivity.
  - split; intros _; vm_compute; reflexivity.
Defined.

(** C8: the script takes no parameter: how a run ends and what it does is
    a function of the environment and of the state of the process it runs
    in, and of nothing else.  Two runs, in environments that agree on what
    the script looks at (the modules it imports, the runtime, the working
    directory, the file at the resolved path, the date type) and in sessions
    in the same state of the process (module cache, runtime, assemblies,
    namespaces), end alike and log the same operations, whatever the two
    calling scopes held; they bind the same set of names when the scopes
    held the same names before, and they are the same run when they start
    from the same session. *)
Theorem C8_determinism (e1 e2 : Env) (s1 s2 : Session) :
  same_ambient e1 e2 →
  same_process s1 s2 →
  (run e1 s1).2 = (run e2 s2).2
  ∧ events_of s1 (run e1 s1).1 = events_of s2 (run e2 s2).1
  ∧ (bound_names s1 = bound_names s2 →
     bound_names (run e1 s1).1 = bound_names (run e2 s2).1)
  ∧ (s1 = s2 → run e1 s1 = run e2 s2).
Proof.
  intros Hamb Hproc.
  assert ((run e1 s1).2 = (run e2 s2).2) as Hc
    by (rewrite !run_outcome; by apply outcome_agree).
  split; [done|]. split; [|split].
  - pose proof (run_behaviours e1 s1) as H1.
    pose proof (run_behaviours e2 s2) as H2.
    assert (resolved_artifact e1 = resolved_artifact e2) as Hp
      by (unfold resolved_artifact; by rewrite (same_cwd _ _ Hamb)).
    rewrite Hc, Hp in H1. by eapply behaviours_functional.
  - intros Hb. by rewrite !run_names, Hc, Hb.
  - intros ->. apply exec_ext, bootstrap_agree, Hamb.
Qed.

Lemma same_process_busy_idle : same_process busy_session idle_session.
Proof. by split. Defined.

Lemma C8_determinism_witness :
  same_ambient good_env good_env_variant
  ∧ same_process busy_session idle_session
  ∧ (run good_env busy_session).2 = (run good_env_variant idle_session).2
  ∧ events_of busy_session (run good_env busy_session).1
    = events_of idle_session (run good_env_variant idle_session).1.
Proof.
  destruct (C8_determinism good_env good_env_variant busy_session idle_session
              good_env_variant_same same_process_busy_idle) as (Hc & Hev & _).
  exact (conj good_env_variant_same (conj same_process_busy_idle (conj Hc Hev))).
Defined.

(** C8 as stated fails: the environment alone does not determine the names
    bound.  In one and the same environment, a run from a new session and a
    run from a session that already holds a name of its own end with
    different sets of bound names; and where pandas is not installed, a run
    from a new session stops at line 12 while a run from a session that has
    pandas in its module cache completes and binds all nine names. *)
Lemma C8_counterexample :
  bound_names (run good_env new_session).1
  ≠ bound_names (run good_env busy_session).1
  ∧ (run no_pandas_env new_session).2 = Uncaught (ModuleNotFoundError "pandas")
  ∧ (run no_pandas_env warm_session).2 = Normal
  ∧ bound_names (run no_pandas_env new_session).1
    ≠ bound_names (run no_pandas_env warm_session).1.
Proof.
  assert (bound_names (run good_env new_session).1
          = {[ "load"; "os"; "clr"; "plt"; "np"; "pd"; "Instruments";
               "PricingEngines"; "DateOnly" ]}) as H1 by (vm_compute; reflexivity).
  assert (bound_names (run good_env busy_session).1
          = {[ "load"; "os"; "clr"; "plt"; "np"; "pd"; "Instruments";
               "PricingEngines"; "DateOnly"; "data" ]}) as H2
    by (vm_compute; reflexivity).
  assert (bound_names (run no_pandas_env new_session).1
          = {[ "load"; "os"; "clr"; "plt"; "np" ]}) as H3
    by (vm_compute; reflexivity).
  assert (bound_names (run no_pandas_env warm_session).1
          = {[ "load"; "os"; "clr"; "plt"; "np"; "pd"; "Instruments";
               "PricingEngines"; "DateOnly" ]}) as H4 by (vm_compute; reflexivity).
  split; [|split; [vm_compute; reflexivity|split; [vm_compute; reflexivity|]]].
  - rewrite H1, H2. intros Heq.
    assert ("data" ∈ ({[ "load"; "os"; "clr"; "plt"; "np"; "pd"; "Instruments";
               "PricingEngines"; "DateOnly" ]} : gset string)) as Hin
      by (rewrite Heq; set_solver).
    set_solver.
  - rewrite H3, H4. intros Heq.
    assert ("pd" ∈ ({[ "load"; "os"; "clr"; "plt"; "np" ]} : gset string)) as Hin
      by (rewrite Heq; set_solver).
    set_solver.
Qed.

(** ** Running the script twice *)

Lemma in_cache_hit (m : string) (X Y : gset string) : m ∈ {[ m ]} ∪ X ∪ Y.
Proof. set_solver. Qed.

(** In a second run every guard is known: a module imported by the first
    run is in the cache, and the guard that failed fails again. *)
Ltac cached :=
  repeat first
    [ apply elem_of_union_l; apply elem_of_singleton; reflexivity
    | apply elem_of_union_r ].

Ltac guard_holds :=
  proj; first [assumption | apply elem_of_union_l; solve [cached]].

Ltac guard_fails :=
  proj; rewrite ?in_cache_skip by done;
  first [ assumption
        | match goal with
          | H : ?m ∉ _ |- ?m ∉ _ => clear -H; set_solver
          end ].

Ltac known_guard :=
  first [ rewrite bool_decide_eq_true_2 by guard_holds
        | rewrite bool_decide_eq_false_2 by guard_fails ].

Ltac rerun_step :=
  first
  [ rewrite from_import_load_eq; known_guard
  | rewrite import_as_eq; known_guard
  | rewrite import_namespace_as_eq; known_guard
  | rewrite from_namespace_import_eq; known_guard; try known_guard
  | rewrite call_load_eq by look; unfold pythonnet_load; proj;
    lazymatch goal with
    | Hb : bridge ?s = _ |- context [match bridge ?s with _ => _ end] =>
        rewrite Hb; try known_guard
    | |- _ => idtac
    end
  | rewrite add_reference_eq by look; unfold clr_AddReference;
    match goal with
    | Hf : files ?e !! ?p = _ |- context [files ?e !! ?p] =>
        rewrite Hf;
        try match goal with
            | Hl : loadable ?f = _ |- context [loadable ?f] => rewrite Hl
            end
    end ];
  proj.

Lemma lookup_replay (t : list Event) (g : gmap string Obj) (k : string) :
  replay t g !! k
  = if bool_decide (k ∈ names_bound_in t) then Some (bound_object k) else g !! k.
Proof.
  revert g. induction t as [|ev t IH]; intros g.
  - by rewrite bool_decide_eq_false_2 by apply not_elem_of_nil.
  - unfold replay, names_bound_in in *. cbn [foldl omap list_omap].
    rewrite IH. destruct ev; try done. cbn [list_omap].
    rewrite lookup_insert.
    repeat case_bool_decide; repeat case_decide; subst; try done; set_solver.
Qed.

Lemma replay_idemp (t : list Event) (g : gmap string Obj) :
  replay t (replay t g) = replay t g.
Proof.
  apply map_eq. intros k. rewrite !lookup_replay. by case_bool_decide.
Qed.

(** A second run takes the same path as the first: same completion, same
    log. *)
Lemma rerun_same_path (env : Env) (s s1 : Session) c1 :
  run env s = (s1, c1) →
  ∀ r2, r2 = run env s1 →
        r2.2 = c1
        ∧ trace r2.1 = trace s1 ++ events_of s s1
        ∧ sys_modules r2.1 = sys_modules s1
        ∧ bridge r2.1 = bridge s1
        ∧ assemblies r2.1 = assemblies s1
        ∧ namespaces r2.1 = namespaces s1.
Proof.
  intros E r2 Hr2. revert E.
  run_cases; intros [= <- <-]; subst r2.
  all: unfold run, bootstrap, import_; cbn [exec take].
  all: repeat rerun_step.
  all: split; [reflexivity|].
  all: split; [norm_events; by rewrite <- ?app_assoc|].
  all: split; [clear; set_solver|].
  all: split; [done|].
  all: split; clear; set_solver.
Qed.

(** C6: running the script a second time in the session the first run left
    behind binds exactly the names the first run bound (and to the same
    objects), whatever the environment and the starting session, although no
    statement of the script checks for an earlier run.  The second run also
    ends the way the first did and logs the same events again. *)
Theorem C6_idempotent_rerun (env : Env) (s : Session) :
  bound_names (run env (run env s).1).1 = bound_names (run env s).1
  ∧ globals (run env (run env s).1).1 = globals (run env s).1
  ∧ (run env (run env s).1).2 = (run env s).2
  ∧ events_of (run env s).1 (run env (run env s).1).1
    = events_of s (run env s).1.
Proof.
  destruct (rerun_same_path env s (run env s).1 (run env s).2
              (surjective_pairing _) _ eq_refl) as (Hc & Ht & _).
  pose proof (events_of_app _ _ _ Ht) as Hev.
  assert (globals (run env (run env s).1).1 = globals (run env s).1) as Hg.
  { rewrite (run_globals env (run env s).1), Hev, (run_globals env s).
    apply replay_idemp. }
  split; [|done]. unfold bound_names. by rewrite Hg.
Qed.

(** * Further properties of the script *)

(** ** The calling scope *)

Lemma run_binds_listed (env : Env) (s : Session) (x : string) :
  x ∈ names_bound_in (events_of s (run env s).1) → x ∈ extra_names ++ advertised.
Proof.
  rewrite (behaviours_names _ _ _ (run_behaviours env s)).
  intros Hin. rewrite <- (take_drop (names_after (run env s).2)).
  apply elem_of_app. by left.
Qed.

(** X1: whatever the environment and however the run ends, a name that is
    not one of the nine names of the script keeps the binding it had: it is
    neither rebound nor removed. *)
Theorem X1_other_names_untouched (env : Env) (s : Session) (x : string) :
  x ∉ extra_names ++ advertised →
  globals (run env s).1 !! x = globals s !! x.
Proof.
  intros Hx. rewrite run_globals, lookup_replay.
  rewrite bool_decide_eq_false_2; [done|].
  intros Hin. by apply Hx, (run_binds_listed env s).
Qed.

Lemma X1_other_names_untouched_witness :
  globals (run good_env busy_session).1 !! "data" = Some (PyModule "json").
Proof.
  rewrite (X1_other_names_untouched good_env busy_session "data").
  - reflexivity.
  - unfold extra_names, advertised. cbn [app]. intros Hin. inv_in Hin.
Defined.

(** X2: after a run that completes, each of the nine names is bound to the
    object its statement names -- [np] to the numpy module, [Instruments] to
    the DerivaSharp.Instruments namespace, [DateOnly] to the System.DateOnly
    type and so on -- whatever these names were bound to before. *)
Theorem X2_bindings_after_success (env : Env) (s : Session) :
  (run env s).2 = Normal →
  globals (run env s).1 !! "load" = Some (PyFunction "pythonnet" "load")
  ∧ globals (run env s).1 !! "os" = Some (PyModule "os")
  ∧ globals (run env s).1 !! "clr" = Some (PyModule "clr")
  ∧ globals (run env s).1 !! "plt" = Some (PyModule "matplotlib.pyplot")
  ∧ globals (run env s).1 !! "np" = Some (PyModule "numpy")
  ∧ globals (run env s).1 !! "pd" = Some (PyModule "pandas")
  ∧ globals (run env s).1 !! "Instruments"
    = Some (ClrNamespace "DerivaSharp.Instruments")
  ∧ globals (run env s).1 !! "PricingEngines"
    = Some (ClrNamespace "DerivaSharp.PricingEngines")
  ∧ globals (run env s).1 !! "DateOnly" = Some (ClrType "System" "DateOnly").
Proof.
  intros Hc.
  assert (∀ x, x ∈ extra_names ++ advertised →
               globals (run env s).1 !! x = Some (bound_object x)) as Hall.
  { intros x Hx. rewrite run_globals, lookup_replay.
    rewrite bool_decide_eq_true_2; [done|].
    by rewrite (behaviours_names _ _ _ (run_behaviours env s)), Hc. }
  unfold extra_names, advertised in Hall. cbn [app] in Hall.
  repeat split; rewrite Hall by in_here; reflexivity.
Qed.

Lemma X2_bindings_after_success_witness :
  globals busy_session !! "np" = Some (PyModule "json")
  ∧ globals (run good_env busy_session).1 !! "np" = Some (PyModule "numpy").
Proof.
  split; [reflexivity|].
  assert ((run good_env busy_session).2 = Normal) as Hc
    by (vm_compute; reflexivity).
  exact (proj1 (proj2 (proj2 (proj2 (proj2
           (X2_bindings_after_success good_env busy_session Hc)))))).
Defined.

Lemma nine_names_NoDup : NoDup (extra_names ++ advertised).
Proof.
  unfold extra_names, advertised. cbn [app].
  repeat (apply NoDup_cons_2; [intros Hin; inv_in Hin|]). apply NoDup_nil_2.
Qed.

(** X3: the nine names are bound in the order of the script.  In a session
    in which none of them was bound, a name bound after the run has every
    earlier name bound too, and [DateOnly], the last one, is bound exactly
    when the run completed. *)
Theorem X3_names_bound_in_order (env : Env) (s : Session) :
  none_bound (extra_names ++ advertised) s →
  (∀ i j x y,
     i ≤ j →
     (extra_names ++ advertised) !! i = Some x →
     (extra_names ++ advertised) !! j = Some y →
     y ∈ bound_names (run env s).1 → x ∈ bound_names (run env s).1)
  ∧ ("DateOnly" ∈ bound_names (run env s).1 ↔ (run env s).2 = Normal).
Proof.
  intros Hs.
  assert (∀ j y, (extra_names ++ advertised) !! j = Some y →
                 y ∈ bound_names (run env s).1 →
                 j < names_after (run env s).2) as Hidx.
  { intros j y Hj Hy. rewrite run_names in Hy.
    apply elem_of_union in Hy as [Hy|Hy];
      [|by destruct (Hs y (list_elem_of_lookup_2 _ _ _ Hj))].
    apply elem_of_list_to_set, list_elem_of_lookup in Hy as [k Hk].
    pose proof (lookup_lt_Some _ _ _ Hk) as Hlt.
    rewrite length_take in Hlt.
    rewrite lookup_take_lt in Hk by lia.
    rewrite (NoDup_lookup _ j k y nine_names_NoDup Hj Hk). lia. }
  split.
  - intros i j x y Hij Hi Hj Hy. rewrite run_names.
    apply elem_of_union_l, elem_of_list_to_set, list_elem_of_lookup.
    exists i. rewrite lookup_take_lt; [done|].
    specialize (Hidx j y Hj Hy). lia.
  - split.
    + intros Hd. specialize (Hidx 8 "DateOnly" eq_refl Hd).
      destruct (run env s).2 as [|e]; [done|exfalso].
      unfold names_after in Hidx.
      destruct (step_of e) as [|[|[|[|[|[|[|[|[|[|k]]]]]]]]]]; lia.
    + intros Hc. rewrite run_names, Hc. set_solver.
Qed.

Lemma X3_names_bound_in_order_witness :
  "DateOnly" ∈ bound_names (run good_env new_session).1.
Proof.
  assert (none_bound (extra_names ++ advertised) new_session) as Hs
    by (intros x _; apply not_elem_of_empty).
  apply (proj2 (X3_names_bound_in_order good_env new_session Hs)).
  vm_compute. reflexivity.
Defined.

(** ** The names the script uses *)

(** X4: the script uses three names, [load] at line 3 and [clr] and [os] at
    line 8, and each is bound by the script itself before it is used:
    whenever a run reaches line 3, [load] is pythonnet's [load], and whenever
    it reaches line 8, [os] and [clr] are the two modules -- whatever the
    session had these names bound to.  So neither line fails on a name: when
    line 3 fails, the runtime could not be started, and when line 8 fails,
    the loader could not load the file. *)
Theorem X4_names_used_are_bound (env : Env) (s : Session) :
  (∀ s1, exec env (take bridge_init_step bootstrap) s = (s1, Normal) →
         globals s1 !! "load" = Some (PyFunction "pythonnet" "load"))
  ∧ (∀ s4, exec env (take artifact_load_step bootstrap) s = (s4, Normal) →
           globals s4 !! "os" = Some (PyModule "os")
           ∧ globals s4 !! "clr" = Some (PyModule "clr"))
  ∧ (∀ e s', fails_at env s bridge_init_step e s' → e = RuntimeError "coreclr")
  ∧ (∀ e s', fails_at env s artifact_load_step e s' → load_failure e = true).
Proof.
  assert (∀ i e s', fails_at env s i e s' →
            step_of e = i
            ∧ (events_of s s', Uncaught e) ∈ behaviours (resolved_artifact env))
    as Hfail.
  { intros i e s' (st & s_i & Hi & Hpre & Hst). split.
    - by eapply stmt_raise_step.
    - pose proof (exec_raise_at env bootstrap s s_i s' i st e Hi Hpre Hst) as Hrun.
      pose proof (run_behaviours env s) as Hb. unfold run in Hb.
      by rewrite Hrun in Hb. }
  split; [|split; [|split]].
  - unfold bridge_init_step, bootstrap. cbn [take exec]. intros s1.
    rewrite from_import_load_eq.
    case_bool_decide; cbv beta iota; intros [= <-]. look.
  - unfold artifact_load_step, bootstrap, import_. cbn [take exec]. intros s4.
    rewrite from_import_load_eq.
    case_bool_decide; cbv beta iota; [|intros [=]].
    rewrite call_load_eq by look. unfold pythonnet_load. proj.
    destruct (bridge s); [|case_bool_decide]; cbv beta iota;
      try (intros [=]; fail).
    all: rewrite import_as_eq; case_bool_decide; cbv beta iota;
      try (intros [=]; fail).
    all: rewrite import_as_eq; case_bool_decide; cbv beta iota;
      try (intros [=]; fail).
    all: intros [= <-]; split; look.
  - intros e s' [Hstep Hb]%Hfail. unfold bridge_init_step in Hstep.
    unfold behaviours, failures in Hb. cbn [map] in Hb.
    inv_in Hb; injection Hb as _ ->; first [reflexivity | discriminate Hstep].
  - intros e s' [Hstep Hb]%Hfail. unfold artifact_load_step in Hstep.
    unfold behaviours, failures in Hb. cbn [map] in Hb.
    inv_in Hb; injection Hb as _ ->; first [reflexivity | discriminate Hstep].
Qed.

Lemma X4_names_used_are_bound_witness :
  globals busy_session !! "os" = None
  ∧ ∃ s4, exec good_env (take artifact_load_step bootstrap) busy_session
          = (s4, Normal)
          ∧ globals s4 !! "os" = Some (PyModule "os")
          ∧ globals s4 !! "clr" = Some (PyModule "clr").
Proof.
  split; [reflexivity|].
  eexists. split; [vm_compute; reflexivity|].
  apply (proj1 (proj2 (X4_names_used_are_bound good_env busy_session))).
  vm_compute. reflexivity.
Defined.

(** ** When a run in a new session fails at the bridge or at the loader *)

(** X6: in a new session the run ends with the runtime failing to start
    exactly when the bridge package is installed and no runtime can be
    found, and it ends in a failure of the assembly loader exactly when the
    bridge package, the runtime and the [clr] module are there and the file
    at the resolved path is missing or cannot be loaded. *)
Theorem X6_failure_conditions (env : Env) :
  ((∃ e, (run env new_session).2 = Uncaught e ∧ environment_missing e = true)
   ↔ "pythonnet" ∈ installed env ∧ ¬ runtime_installed env)
  ∧ ((∃ e, (run env new_session).2 = Uncaught e ∧ load_failure e = true)
     ↔ "pythonnet" ∈ installed env ∧ runtime_installed env
       ∧ "clr" ∈ installed env ∧ ¬ artifact_present_and_compatible env).
Proof.
  assert (∀ m, m ∈ python_modules →
               EvImport m true ∈ events_of new_session (run env new_session).1 →
               m ∈ installed env) as Hmod.
  { intros m Hm Hin.
    destruct (ok_module _ _ _ _ (run_facts env new_session) m Hm Hin) as [H|H];
      [by apply not_elem_of_empty in H|done]. }
  assert (events_of new_session (run env new_session).1 !! 2
          = Some (EvLoadRuntime "coreclr" true) → runtime_installed env) as Hrun.
  { intros Hin.
    destruct (ok_bridge _ _ _ _ (run_facts env new_session) Hin)
      as [[[? [=]]|H] _]; done. }
  assert (∀ p, EvAddReference p false
               ∈ events_of new_session (run env new_session).1 →
               ¬ artifact_present_and_compatible env) as Hbad.
  { intros p Hin (f & Hf & Hl).
    pose proof (run_facts env new_session) as Hfacts.
    pose proof (run_behaviours env new_session) as Hb.
    destruct (run env new_session) as [s' c]. cbn [fst snd] in *.
    unfold behaviours, failures, script_events in Hb. cbn [map take app] in Hb.
    inv_in Hb; injection Hb as Ht ->; rewrite Ht in Hin; inv_in Hin.
    - pose proof (no_file _ _ _ _ Hfacts _ eq_refl) as Hm.
      unfold artifact_missing in Hm. congruence.
    - destruct (bad_file _ _ _ _ Hfacts _ eq_refl) as (f' & ? & ?). congruence. }
  unfold python_modules in Hmod.
  run_table env new_session.
  all: split; (split; [intros (e & [= <-] & He); try discriminate He
                      |intros Hyp]).
  (* the failure is of the kind asked for: read the conditions off the log *)
  all: try (split; [apply Hmod; [in_here|in_here]|]).
  all: try (by apply (no_bridge _ _ _ _ Hfacts)).
  all: try (split; [by apply Hrun|]).
  all: try (split; [apply Hmod; [in_here|in_here]|]).
  all: try (eapply Hbad; in_here).
  (* the conditions hold: every other way to end contradicts them *)
  all: try (eexists; split; reflexivity).
  all: exfalso.
  all: try (destruct Hyp as (Hpy & _);
            destruct (no_module _ _ _ _ Hfacts _ eq_refl) as (_ & Hn & _);
            apply Hn; [in_here|exact Hpy]).
  all: try (destruct Hyp as (_ & Hnr); apply Hnr, Hrun; reflexivity).
  all: try (destruct Hyp as (_ & Hr & _);
            by destruct (no_bridge _ _ _ _ Hfacts eq_refl)).
  all: try (destruct Hyp as (_ & _ & Hclr & _);
            destruct (no_module _ _ _ _ Hfacts _ eq_refl) as (_ & Hn & _);
            apply Hn; [in_here|exact Hclr]).
  all: try (destruct Hyp as (_ & _ & _ & Hna); apply Hna;
            eapply (ok_artifact _ _ _ _ Hfacts); rewrite Ht; reflexivity).
Qed.

Lemma X6_failure_conditions_witness :
  ∃ e, (run no_artifact_env new_session).2 = Uncaught e ∧ load_failure e = true.
Proof.
  apply (proj2 (proj2 (X6_failure_conditions no_artifact_env))).
  split; [vm_compute; reflexivity|]. split; [vm_compute; reflexivity|].
  split; [vm_compute; reflexivity|].
  intros (f & Hf & _). vm_compute in Hf. discriminate Hf.
Defined.

(** ** What a run keeps *)

(** X7: a run only adds to the session.  Modules stay in the module cache,
    loaded assemblies stay loaded, known namespaces stay known, bound names
    stay bound, the log is extended at its end, and a runtime that is
    already loaded is kept, whichever it is. *)
Theorem X7_session_only_grows (env : Env) (s : Session) :
  sys_modules s ⊆ sys_modules (run env s).1
  ∧ assemblies s ⊆ assemblies (run env s).1
  ∧ namespaces s ⊆ namespaces (run env s).1
  ∧ bound_names s ⊆ bound_names (run env s).1
  ∧ trace s `prefix_of` trace (run env s).1
  ∧ (∀ rt, bridge s = Some rt → bridge (run env s).1 = Some rt).
Proof.
  assert (sys_modules s ⊆ sys_modules (run env s).1
          ∧ assemblies s ⊆ assemblies (run env s).1
          ∧ namespaces s ⊆ namespaces (run env s).1
          ∧ (∀ rt, bridge s = Some rt → bridge (run env s).1 = Some rt))
    as (Hm & Ha & Hn & Hb).
  { run_inv env s.
    all: split; [clear; set_solver|].
    all: split; [clear; set_solver|].
    all: split; [clear; set_solver|].
    all: intros rt Hrt; congruence. }
  split; [done|]. split; [done|]. split; [done|].
  split; [rewrite run_names; set_solver|].
  split; [|done]. rewrite run_trace. by eexists.
Qed.
(** ** The path handed to the loader *)

Lemma normalize_keeps_plain (kept comps : list string) :
  Forall plain_component kept →
  Forall plain_component (Path.normalize kept comps).
Proof.
  revert kept. induction comps as [|c cs IH]; intros kept Hk; simpl.
  - by apply Forall_rev.
  - repeat case_bool_decide.
    + by apply IH.
    + apply IH. destruct kept; [done|]. by eapply Forall_cons_1.
    + apply IH, Forall_cons. split; [|done].
      unfold plain_component. naive_solver.
Qed.

(** X8: whatever the working directory is -- also one written with [.] or
    [..] in it -- the loader is called with a normalised full path: no
    component of it is empty, [.] or [..], and it ends with the eight
    components src, DerivaSharp, bin, Release, net9.0, win-x64, publish,
    DerivaSharp.dll, after components that are themselves normalised. *)
Theorem X8_loader_path_normalised (env : Env) (s : Session) (p : Path.t)
    (ok : bool) :
  EvAddReference p ok ∈ events_of s (run env s).1 →
  Forall plain_component p
  ∧ ∃ d, Forall plain_component d
         ∧ p = d ++ ["src"; "DerivaSharp"; "bin"; "Release"; "net9.0";
                     "win-x64"; "publish"; "DerivaSharp.dll"].
Proof.
  intros Hin.
  assert (p = resolved_artifact env) as ->
    by (eapply behaviours_add_reference; [apply run_behaviours|done]).
  assert (Forall plain_component (resolved_artifact env)) as Hplain.
  { unfold resolved_artifact, Path.abspath, Path.normpath.
    destruct (Path.is_absolute artifact_literal);
      by apply normalize_keeps_plain. }
  split; [done|].
  exists (Path.parent (Path.normpath (cwd env))).
  unfold resolved_artifact in *. rewrite abspath_artifact_literal in *.
  split; [|done]. by apply Forall_app in Hplain as [? _].
Qed.

Lemma X8_loader_path_normalised_witness :
  Forall plain_component artifact_path
  ∧ ∃ d, Forall plain_component d
         ∧ artifact_path = d ++ ["src"; "DerivaSharp"; "bin"; "Release"; "net9.0";
                                 "win-x64"; "publish"; "DerivaSharp.dll"].
Proof.
  apply (X8_loader_path_normalised good_env new_session artifact_path true).
  vm_compute. in_here.
Defined.
